(** * Default extraction from JSON schemas: a model of [json_schema_operations.py]

    The development embeds the two functions of the module,
    [change_encoding] and [extract_schema_defaults], as Rocq functions over a
    type of Python values, and proves the properties of the default
    extraction that its specification states.

    Conventions of the embedding:
    - a Python [dict] is an association list, because the order in which
      [for i, j in iteritems(...)] visits the properties matters once the
      loop body assigns to [schema["properties"]]. The list of a dict that
      is given is in the order in which that dict iterates. The list of a
      dict that the code builds is in the order of insertion: this is how
      it iterates on Python 3.7 and later, and what is proved of the order
      of a built dict is proved for Python 3 only; on Python 2 a dict
      iterates in the order of its hash table, and the order of such a list
      stands for nothing;
    - the only object the code ever mutates is the dict bound to [schema];
      it is threaded through the functions as an explicit state, and every
      other value is immutable and can be shared freely;
    - Python exceptions are the [Err] results of an error monad;
    - the recursion of [extract_schema_defaults] is not structural (a local
      reference may lead back to an enclosing node), so the function takes
      the number of nested calls the interpreter still allows; exhausting it
      is Python's [RecursionError];
    - the recursion of [change_encoding] is structural: [change_encoding] is
      the function short of the interpreter's limit, which is what a call
      from [extract_schema_defaults] gets in this model, and
      [change_encoding_within] is the function with the nested calls
      counted, which raises [RecursionError] on a value nested more deeply
      than the limit allows;
    - the module runs on Python 2 and on Python 3 (it tests
      [sys.version_info]); the version decides what a string literal of the
      source is, whether text and bytes can be equal, and which strings
      [change_encoding] encodes;
    - the operating system, the file system, the JSON parser and the codec
      registry are not part of the module: with the version, they are the
      fields of an [environment]. *)

From Stdlib Require Import List String Ascii ZArith Bool Lia.
Import ListNotations.
Open Scope string_scope.

Set Warnings "-register-all".

(** ** Python values *)

(** A Python string is either text ([str] on Python 3, [unicode] on
    Python 2) or a byte string ([bytes] on Python 3, [str] on Python 2).
    Text is held in its UTF-8 form. *)
Inductive pystr : Type :=
| Text (s : string)
| Bytes (s : string).

(** The values [json.load] produces, closed under [change_encoding]: the
    keys of a dict are strings. A float is a decimal mantissa and exponent;
    the code only ever tests it for truth. *)
Inductive pyval : Type :=
| PNone
| PBool (b : bool)
| PInt (z : Z)
| PFloat (mantissa exponent : Z)
| PStr (s : pystr)
| PList (l : list pyval)
| PDict (d : list (pystr * pyval)).

Definition pydict : Type := list (pystr * pyval).

(** ** Exceptions and results *)

Inductive exn : Type :=
| AttributeError
| KeyError
| TypeError
| RecursionError       (* a RuntimeError on Python 2 *)
| LookupError          (* unknown encoding *)
| UnicodeEncodeError
| UnicodeDecodeError
| IOError              (* the file cannot be opened *)
| ValueError.          (* the file is not a JSON document *)

Inductive result (A : Type) : Type :=
| Ok (a : A)
| Err (e : exn).

Arguments Ok {A} a.
Arguments Err {A} e.

Definition bind {A B : Type} (m : result A) (k : A -> result B) : result B :=
  match m with
  | Ok a => k a
  | Err e => Err e
  end.

Notation "x <- m ;; k" := (bind m (fun x => k))
  (at level 61, m at next level, right associativity).
Notation "' p <- m ;; k" := (bind m (fun x => let p := x in k))
  (at level 61, p pattern, m at next level, right associativity).

(** ** The environment of the module *)

Record environment : Type := {
  (** [sys.version_info[0] >= 3] *)
  py3 : bool;
  (** [text.encode(encoding)]: the codec registry *)
  codec_encode : string -> string -> result string;
  (** [os.sep] *)
  os_sep : ascii;
  (** [os.path.normpath] *)
  normpath : string -> string;
  (** [os.path.join(base, *segments)] *)
  path_join : string -> list string -> string;
  (** [os.getcwd()] *)
  getcwd : string;
  (** [json.load(open(path, 'r'))] *)
  load_json : string -> result pyval
}.

(** ** Strings *)

(** [s.split(sep)] for a one-character separator. *)
Fixpoint split (sep : ascii) (s : string) : list string :=
  match s with
  | EmptyString => [EmptyString]
  | String c s' =>
      if Ascii.eqb c sep then EmptyString :: split sep s'
      else match split sep s' with
           | [] => [String c EmptyString]
           | w :: ws => String c w :: ws
           end
  end.

(** [s[n:]] for a byte string. *)
Fixpoint drop (n : nat) (s : string) : string :=
  match n, s with
  | O, _ => s
  | S n', String _ s' => drop n' s'
  | S _, EmptyString => EmptyString
  end.

(** A byte [10xxxxxx] continues the UTF-8 form of a character. *)
Definition is_continuation (c : ascii) : bool :=
  match c with
  | Ascii _ _ _ _ _ _ b6 b7 => b7 && negb b6
  end.

Fixpoint skip_continuation (s : string) : string :=
  match s with
  | EmptyString => EmptyString
  | String c s' => if is_continuation c then skip_continuation s' else s
  end.

(** [s[n:]] for text: [n] characters are dropped, each with all the bytes
    of its UTF-8 form. *)
Fixpoint drop_chars (n : nat) (s : string) : string :=
  match n, s with
  | O, _ => s
  | S n', String _ s' => drop_chars n' (skip_continuation s')
  | S _, EmptyString => EmptyString
  end.

Definition is_ascii_char (c : ascii) : bool :=
  match c with
  | Ascii _ _ _ _ _ _ _ b7 => negb b7
  end.

Fixpoint is_ascii (s : string) : bool :=
  match s with
  | EmptyString => true
  | String c s' => is_ascii_char c && is_ascii s'
  end.

Definition raw (s : pystr) : string :=
  match s with
  | Text t => t
  | Bytes t => t
  end.

Section Python.

Variable E : environment.

(** A string literal of the source: text on Python 3, bytes on Python 2. *)
Definition lit (s : string) : pystr :=
  if py3 E then Text s else Bytes s.

(** [a == b] on strings. Python 3 never equates text and bytes; Python 2
    equates them when the byte string is ASCII and spells the same text. *)
Definition str_eqb (a b : pystr) : bool :=
  match a, b with
  | Text x, Text y => String.eqb x y
  | Bytes x, Bytes y => String.eqb x y
  | Text x, Bytes y => negb (py3 E) && is_ascii y && String.eqb x y
  | Bytes x, Text y => negb (py3 E) && is_ascii x && String.eqb x y
  end.

(** [v == "literal"] for an arbitrary value [v]. *)
Definition eq_lit (v : pyval) (s : string) : bool :=
  match v with
  | PStr t => str_eqb t (lit s)
  | _ => false
  end.

(** [v in ["l1", "l2", ...]] *)
Definition in_lits (v : pyval) (ls : list string) : bool :=
  existsb (eq_lit v) ls.

(** Truth value of an object, as tested by [if d]. *)
Definition truthy (v : pyval) : bool :=
  match v with
  | PNone => false
  | PBool b => b
  | PInt z => negb (Z.eqb z 0)
  | PFloat m _ => negb (Z.eqb m 0)
  | PStr s => negb (String.eqb (raw s) "")
  | PList l => match l with [] => false | _ => true end
  | PDict d => match d with [] => false | _ => true end
  end.

(** ** Dictionaries *)

Fixpoint lookup (k : pystr) (d : pydict) : option pyval :=
  match d with
  | [] => None
  | (k', v) :: d' => if str_eqb k' k then Some v else lookup k d'
  end.

(** [d[k] = v]: an existing key keeps its place (and its key object), a new
    one goes last, where Python 3.7 and later iterate it. *)
Fixpoint dict_set (d : pydict) (k : pystr) (v : pyval) : pydict :=
  match d with
  | [] => [(k, v)]
  | (k', v') :: d' =>
      if str_eqb k' k then (k', v) :: d' else (k', v') :: dict_set d' k v
  end.

(** [dict(pairs)] *)
Definition dict (pairs : list (pystr * pyval)) : pydict :=
  fold_left (fun d kv => dict_set d (fst kv) (snd kv)) pairs [].

(** [k in d.keys()] *)
Definition has_key (k : pystr) (d : pydict) : bool :=
  existsb (fun kv => str_eqb (fst kv) k) d.

(** [o.get(k)]: only a dict has the method. *)
Definition py_get (o : pyval) (k : pystr) : result pyval :=
  match o with
  | PDict d => Ok (match lookup k d with Some v => v | None => PNone end)
  | _ => Err AttributeError
  end.

(** [o[k]] for an [o] already known to be a dict. *)
Definition py_getitem (o : pyval) (k : pystr) : result pyval :=
  match o with
  | PDict d => match lookup k d with Some v => Ok v | None => Err KeyError end
  | _ => Err TypeError
  end.

(** [o[k] = v] *)
Definition py_setitem (o : pyval) (k : pystr) (v : pyval) : result pyval :=
  match o with
  | PDict d => Ok (PDict (dict_set d k v))
  | _ => Err TypeError
  end.

(** [iteritems(o)], that is [o.items()] *)
Definition iteritems (o : pyval) : result pydict :=
  match o with
  | PDict d => Ok d
  | _ => Err AttributeError
  end.

(** [o.keys()] *)
Definition py_keys (o : pyval) : result (list pystr) :=
  match o with
  | PDict d => Ok (map fst d)
  | _ => Err AttributeError
  end.

(** [o.startswith("literal")] *)
Definition startswith (o : pyval) (p : string) : result bool :=
  match o with
  | PStr (Text s) => Ok (String.prefix p s)
  | PStr (Bytes s) => if py3 E then Err TypeError else Ok (String.prefix p s)
  | _ => Err AttributeError
  end.

(** ** [change_encoding] *)

(** The [basestring] branch: [jsonObject.encode(encoding)]. On Python 3 a
    byte string is not a [basestring] and falls through to the last branch;
    on Python 2 it is decoded as ASCII first. *)
Definition encode_string (s : pystr) (encoding : string) : result pystr :=
  match s with
  | Text t => b <- codec_encode E encoding t ;; Ok (Bytes b)
  | Bytes t =>
      if py3 E then Ok (Bytes t)
      else if is_ascii t then b <- codec_encode E encoding t ;; Ok (Bytes b)
      else Err UnicodeDecodeError
  end.

(** The nested calls are not counted here: this is the result of the source
    whenever the interpreter's recursion limit is not reached.
    [change_encoding_within] below counts them. *)
Fixpoint change_encoding (jsonObject : pyval) (encoding : string)
  {struct jsonObject} : result pyval :=
  match jsonObject with
  | PDict d =>
      pairs <- (fix items (l : pydict) : result (list (pystr * pyval)) :=
                  match l with
                  | [] => Ok []
                  | (key, value) :: l' =>
                      k <- encode_string key encoding ;;
                      v <- change_encoding value encoding ;;
                      r <- items l' ;;
                      Ok ((k, v) :: r)
                  end) d ;;
      Ok (PDict (dict pairs))
  | PList l =>
      l' <- (fix elems (l : list pyval) : result (list pyval) :=
               match l with
               | [] => Ok []
               | i :: l' =>
                   v <- change_encoding i encoding ;;
                   r <- elems l' ;;
                   Ok (v :: r)
               end) l ;;
      Ok (PList l')
  | PStr s => s' <- encode_string s encoding ;; Ok (PStr s')
  | _ => Ok jsonObject
  end.

(** ** [extract_schema_defaults] *)

(** Truth value of an argument that is a string ([None] is [None] of
    [option], and false). *)
Definition str_truthy (s : string) : bool := negb (String.eqb s "").

(** [o.split("/")] *)
Definition py_split (o : pyval) (sep : ascii) : result (list pystr) :=
  match o with
  | PStr (Text s) => Ok (map Text (split sep s))
  | PStr (Bytes s) =>
      if py3 E then Err TypeError else Ok (map Bytes (split sep s))
  | _ => Err AttributeError
  end.

(** [reduce(lambda d, key: d.get(key) if d else None, defPath, schema)] *)
Fixpoint reduce_get (defPath : list pystr) (d : pyval) : result pyval :=
  match defPath with
  | [] => Ok d
  | key :: defPath' =>
      d' <- (if truthy d then py_get d key else Ok PNone) ;;
      reduce_get defPath' d'
  end.

Section Call.

Variable newEncoding : option string.
Variable externalRefLoc : option string.

(** Lines 101-106: the file an external reference names; [slice] is
    [defPath[5:]]. *)
Definition path_from (slice : string -> string) (defPath : string) : string :=
  let defPath := normpath E defPath in
  let defPath := split (os_sep E) (slice defPath) in
  match externalRefLoc with
  | Some loc =>
      if str_truthy loc then path_join E loc defPath
      else path_join E (getcwd E) defPath
  | None => path_join E (getcwd E) defPath
  end.

(** The file a reference in text names: the slice counts characters. *)
Definition reference_path (defPath : string) : string :=
  path_from (drop_chars 5) defPath.

(** The file a reference in a byte string names (the [str] of Python 2):
    the slice counts bytes. *)
Definition reference_path_bytes (defPath : string) : string :=
  path_from (drop 5) defPath.

Definition file_of (ref : pyval) : result string :=
  match ref with
  | PStr (Text defPath) => Ok (reference_path defPath)
  | PStr (Bytes defPath) => Ok (reference_path_bytes defPath)
  | _ => Err TypeError
  end.

(** Lines 101-116: the element an external reference stands for. *)
Definition load_external (ref : pyval) : result pyval :=
  defPath <- file_of ref ;;
  externalSchema <- load_json E defPath ;;
  match newEncoding with
  | Some encoding =>
      if str_truthy encoding then change_encoding externalSchema encoding
      else Ok externalSchema
  | None => Ok externalSchema
  end.

(** Lines 96-120: if the element is a reference, the referenced element;
    a local pointer is walked from the object bound to [schema]. *)
Definition resolve (schema j : pyval) : result pyval :=
  keys <- py_keys j ;;
  if existsb (fun k => str_eqb k (lit "$ref")) keys then
    defPath <- py_get j (lit "$ref") ;;
    external <- startswith defPath "file:" ;;
    if external then load_external defPath
    else
      ref <- py_get j (lit "$ref") ;;
      segments <- py_split ref "/" ;;
      reduce_get (tl segments) schema
  else Ok j.

(** The variables of a call: [schemaDefaults], [defaultsFound], and the
    object bound to [schema]. *)
Definition frame : Type := (pydict * bool * pyval)%type.

Definition basic_types : list string :=
  ["array"; "boolean"; "integer"; "number"; "string"].

Section Loop.

(** The recursive call, on the object bound to [schema]: it returns the
    pair and leaves the object as it last assigned it. *)
Variable self : pyval -> result frame.

(** Lines 95-141: the body of the loop. *)
Definition loop_body (i : pystr) (j : pyval) (st : frame) : result frame :=
  let '(schemaDefaults, defaultsFound, schema) := st in
  j <- resolve schema j ;;
  elementType <- py_get j (lit "type") ;;
  if eq_lit elementType "object" then
    properties <- py_getitem j (lit "properties") ;;
    schema <- py_setitem schema (lit "properties") properties ;;
    ' (elementDefaults, defaultExtracted, schema) <- self schema ;;
    if (defaultExtracted : bool) then
      Ok (dict_set schemaDefaults i (PDict elementDefaults), true, schema)
    else Ok (schemaDefaults, defaultsFound, schema)
  else if in_lits elementType basic_types then
    default <- py_get j (lit "default") ;;
    match default with
    | PNone => Ok (schemaDefaults, defaultsFound, schema)
    | _ => Ok (dict_set schemaDefaults i default, true, schema)
    end
  else if eq_lit elementType "null" then
    Ok (dict_set schemaDefaults i PNone, true, schema)
  else Ok (schemaDefaults, defaultsFound, schema).

(** Line 94: [for i, j in ...] *)
Fixpoint loop (items : pydict) (st : frame) : result frame :=
  match items with
  | [] => Ok st
  | (i, j) :: items' => st' <- loop_body i j st ;; loop items' st'
  end.

End Loop.

(** [extract_schema_defaults(schema, newEncoding, externalRefLoc)], with
    [depth] nested calls still allowed. The result holds the returned pair
    and the object bound to [schema] as the call leaves it. An exception
    aborts the call; what it leaves of [schema] is not kept. *)
Fixpoint extract_schema_defaults (depth : nat) (schema : pyval)
  : result frame :=
  match depth with
  | O => Err RecursionError
  | S depth' =>
      properties <- py_get schema (lit "properties") ;;
      items <- iteritems properties ;;
      loop (extract_schema_defaults depth') items ([], false, schema)
  end.

End Call.

End Python.

Arguments loop_body E newEncoding externalRefLoc self i j st : simpl never.

(** * Specifications *)

Section Specifications.

Variable E : environment.
Variable newEncoding externalRefLoc : option string.

(** ** The effect of one iteration

    [dispatched self i n t st st'] describes the frame [st'] that the type
    dispatch on the resolved node [n] of type [t] leaves from [st], for the
    property named [i]. *)

Inductive dispatched (self : pyval -> result frame) (i : pystr) (n t : pyval)
  : frame -> frame -> Prop :=
| dispatched_object_found defs found schema properties schema' nested schema'' :
    eq_lit E t "object" = true ->
    py_getitem E n (lit E "properties") = Ok properties ->
    py_setitem E schema (lit E "properties") properties = Ok schema' ->
    self schema' = Ok (nested, true, schema'') ->
    dispatched self i n t (defs, found, schema)
      (dict_set E defs i (PDict nested), true, schema'')
| dispatched_object_empty defs found schema properties schema' nested schema'' :
    eq_lit E t "object" = true ->
    py_getitem E n (lit E "properties") = Ok properties ->
    py_setitem E schema (lit E "properties") properties = Ok schema' ->
    self schema' = Ok (nested, false, schema'') ->
    dispatched self i n t (defs, found, schema) (defs, found, schema'')
| dispatched_basic_default defs found schema default :
    in_lits E t basic_types = true ->
    py_get E n (lit E "default") = Ok default ->
    default <> PNone ->
    dispatched self i n t (defs, found, schema)
      (dict_set E defs i default, true, schema)
| dispatched_basic_none defs found schema :
    in_lits E t basic_types = true ->
    py_get E n (lit E "default") = Ok PNone ->
    dispatched self i n t (defs, found, schema) (defs, found, schema)
| dispatched_null defs found schema :
    eq_lit E t "null" = true ->
    dispatched self i n t (defs, found, schema)
      (dict_set E defs i PNone, true, schema)
| dispatched_other defs found schema :
    eq_lit E t "object" = false ->
    in_lits E t basic_types = false ->
    eq_lit E t "null" = false ->
    dispatched self i n t (defs, found, schema) (defs, found, schema).

(** ** Schemas that declare nothing

    [bare v]: no dict inside [v] has a [default] entry, and none has a
    [type] entry equal to ["null"]. *)

Definition type_of (d : pydict) : pyval :=
  match lookup E (lit E "type") d with
  | Some t => t
  | None => PNone
  end.

Fixpoint bare (v : pyval) : bool :=
  match v with
  | PDict d =>
      negb (has_key E (lit E "default") d)
      && negb (eq_lit E (type_of d) "null")
      && (fix all (l : pydict) : bool :=
            match l with
            | [] => true
            | (_, x) :: l' => bare x && all l'
            end) d
  | PList l =>
      (fix all (l : list pyval) : bool :=
         match l with
         | [] => true
         | x :: l' => bare x && all l'
         end) l
  | _ => true
  end.

(** ** The frame in which a property is processed

    [reaches depth schema before st]: the loop of a call on [schema], whose
    nested calls have [depth] levels left, is in frame [st] once it has
    processed the properties [before]. *)

Definition reaches (depth : nat) (schema : pyval) (before : pydict)
  (st : frame) : Prop :=
  loop E newEncoding externalRefLoc
    (extract_schema_defaults E newEncoding externalRefLoc depth)
    before ([], false, schema) = Ok st.

Definition schema_of (st : frame) : pyval := snd st.

(** ** The properties that are listed

    [listed depth schema n]: the resolved node [n], met while the object
    bound to [schema] is as given, puts its property in the document. *)

Definition listed (depth : nat) (schema n : pyval) : Prop :=
  exists t, py_get E n (lit E "type") = Ok t /\
    (eq_lit E t "null" = true
     \/ (in_lits E t basic_types = true /\
         exists default,
           py_get E n (lit E "default") = Ok default /\ default <> PNone)
     \/ (eq_lit E t "object" = true /\
         exists properties schema' nested found schema'',
           py_getitem E n (lit E "properties") = Ok properties /\
           py_setitem E schema (lit E "properties") properties = Ok schema' /\
           extract_schema_defaults E newEncoding externalRefLoc depth schema'
             = Ok (nested, found, schema'') /\
           nested <> [])).

(** ** Local pointers that lead nowhere

    [walk_fails defPath d]: walking the segments [defPath] down from [d], a
    segment names a key that its dict does not have, or is applied to a
    value that is not a dict. *)

Fixpoint walk_fails (defPath : list pystr) (d : pyval) : bool :=
  match defPath with
  | [] => false
  | key :: defPath' =>
      match d with
      | PDict m =>
          match lookup E key m with
          | Some v => walk_fails defPath' v
          | None => true
          end
      | _ => true
      end
  end.

(** [walk_stumbles defPath d]: the walk fails on a value that is not a dict
    and that Python takes for true (a number other than zero, [True], a
    string or list that is not empty). *)

Fixpoint walk_stumbles (defPath : list pystr) (d : pyval) : bool :=
  match defPath with
  | [] => false
  | key :: defPath' =>
      match d with
      | PDict m =>
          match lookup E key m with
          | Some v => walk_stumbles defPath' v
          | None => false
          end
      | _ => truthy d
      end
  end.

(** ** Schemas the loop does not descend into

    [quiet schema items]: none of the properties [items] resolves, against
    [schema], to a node of type ["object"]. [settled schema]: the
    properties of [schema] itself are quiet. *)

Definition quiet (schema : pyval) (items : pydict) : Prop :=
  forall i j n t,
    In (i, j) items ->
    resolve E newEncoding externalRefLoc schema j = Ok n ->
    py_get E n (lit E "type") = Ok t ->
    eq_lit E t "object" = false.

Definition settled (schema : pyval) : Prop :=
  exists items,
    py_get E schema (lit E "properties") = Ok (PDict items) /\
    quiet schema items.

(** ** Schemas without references

    [ref_free v]: no dict inside [v] has a [$ref] entry.
    [contributes node]: by its own text, the node puts its property in the
    document: it is typed ["null"], or has a basic type and a default other
    than [None], or is an object one of whose properties contributes. *)

Fixpoint ref_free (v : pyval) : bool :=
  match v with
  | PDict d =>
      negb (has_key E (lit E "$ref") d)
      && (fix all (l : pydict) : bool :=
            match l with
            | [] => true
            | (_, x) :: l' => ref_free x && all l'
            end) d
  | PList l =>
      (fix all (l : list pyval) : bool :=
         match l with
         | [] => true
         | x :: l' => ref_free x && all l'
         end) l
  | _ => true
  end.

Inductive contributes : pyval -> Prop :=
| contributes_null d :
    eq_lit E (type_of d) "null" = true ->
    contributes (PDict d)
| contributes_basic d default :
    in_lits E (type_of d) basic_types = true ->
    lookup E (lit E "default") d = Some default ->
    default <> PNone ->
    contributes (PDict d)
| contributes_object d properties name child :
    eq_lit E (type_of d) "object" = true ->
    lookup E (lit E "properties") d = Some (PDict properties) ->
    In (name, child) properties ->
    contributes child ->
    contributes (PDict d).

(** ** The listing rule as the specification words it

    A property is to appear when it has an explicit default, or, being an
    object, has a descendant that has one, or when it is typed ["null"]. *)

Inductive has_explicit_default : pyval -> Prop :=
| own_default d :
    has_key E (lit E "default") d = true ->
    has_explicit_default (PDict d)
| descendant_default d properties name child :
    eq_lit E (type_of d) "object" = true ->
    lookup E (lit E "properties") d = Some (PDict properties) ->
    In (name, child) properties ->
    has_explicit_default child ->
    has_explicit_default (PDict d).

Definition specified_listed (node : pyval) : Prop :=
  has_explicit_default node
  \/ exists d, node = PDict d /\ eq_lit E (type_of d) "null" = true.

(** ** The pair a call returns *)

Definition returned (r : result frame) : result (pydict * bool) :=
  match r with
  | Ok st => Ok (fst st)
  | Err e => Err e
  end.

End Specifications.

(** * A POSIX environment *)

(** [os.path.normpath] of [posixpath]. The components kept so far are held
    last first. *)
Definition posix_normpath (path : string) : string :=
  if String.eqb path "" then "."
  else
    let initial_slashes : nat :=
      if String.prefix "/" path then
        if String.prefix "//" path && negb (String.prefix "///" path)
        then 2 else 1
      else 0 in
    let new_comps :=
      fold_left
        (fun (new_comps : list string) (comp : string) =>
           if String.eqb comp "" || String.eqb comp "." then new_comps
           else if negb (String.eqb comp "..")
                   || (Nat.eqb initial_slashes 0
                       && match new_comps with [] => true | _ => false end)
                   || match new_comps with
                      | last :: _ => String.eqb last ".."
                      | [] => false
                      end
           then comp :: new_comps
           else tl new_comps)
        (split "/" path) [] in
    let path :=
      String.concat "" (repeat "/" initial_slashes)
      ++ String.concat "/" (rev new_comps) in
    if String.eqb path "" then "." else path.

Fixpoint ends_with_sep (s : string) : bool :=
  match s with
  | EmptyString => false
  | String c EmptyString => Ascii.eqb c "/"
  | String _ s' => ends_with_sep s'
  end.

(** [os.path.join] of [posixpath]. *)
Definition posix_join (a : string) (p : list string) : string :=
  fold_left
    (fun (path b : string) =>
       if String.prefix "/" b then b
       else if String.eqb path "" || ends_with_sep path then path ++ b
       else path ++ "/" ++ b)
    p a.

(** The codecs of the examples: text is held in UTF-8 form, which ASCII
    text shares. *)
Definition example_codecs (encoding text : string) : result string :=
  if String.eqb encoding "utf-8" then Ok text
  else if String.eqb encoding "ascii" then
    if is_ascii text then Ok text else Err UnicodeEncodeError
  else Err LookupError.

Definition posix (version3 : bool) (cwd : string)
  (files : string -> result pyval) : environment :=
  {| py3 := version3;
     codec_encode := example_codecs;
     os_sep := "/";
     normpath := posix_normpath;
     path_join := posix_join;
     getcwd := cwd;
     load_json := files |}.

(** * Example documents *)

(** A document as [json.load] returns it: its strings are text. *)
Definition str (s : string) : pyval := PStr (Text s).

Definition obj (members : list (string * pyval)) : pyval :=
  PDict (map (fun m => (Text (fst m), snd m)) members).

Definition no_files (path : string) : result pyval := Err IOError.


(** The external reference of the specification's scenario. *)
Definition ext_json : pyval :=
  obj [("type", str "integer"); ("default", PInt 7)].

Definition external_schema : pyval :=
  obj [("properties", obj [("p", obj [("$ref", str "file:ext.json")])])].

(** [Point], referenced from a property and written out in its place. *)
Definition point : pyval :=
  obj [("type", str "object");
       ("properties",
        obj [("x", obj [("type", str "integer"); ("default", PInt 0)])])].

Definition point_by_reference (name : pystr) : pyval :=
  PDict [(Text "properties",
          PDict [(name, obj [("$ref", str "#/definitions/Point")])]);
         (Text "definitions", obj [("Point", point)])].

Definition point_inlined (name : pystr) : pyval :=
  PDict [(Text "properties", PDict [(name, point)]);
         (Text "definitions", obj [("Point", point)])].

(** An object with a default of its own and a default on its child. *)
Definition nested_defaults (parent_default : pyval) : pyval :=
  obj [("properties",
        obj [("a",
              obj [("type", str "object");
                   ("default", parent_default);
                   ("properties",
                    obj [("b", obj [("type", str "integer");
                                    ("default", PInt 1)])])])])].

(** The files of the examples. *)
Definition schema_files (path : string) : result pyval :=
  if String.eqb path "/schemas/ext.json" then Ok ext_json else Err IOError.

Definition python3 : environment := posix true "/schemas" schema_files.
Definition python2 : environment := posix false "/schemas" schema_files.
Definition python3_without_files : environment :=
  posix true "/schemas" no_files.

(** A null, a string without a default and an integer whose default is 0. *)
Definition null_node : pyval := obj [("type", str "null"); ("default", PInt 3)].
Definition string_node : pyval := obj [("type", str "string")].
Definition integer_node : pyval :=
  obj [("type", str "integer"); ("default", PInt 0)].

Definition three_properties : pyval :=
  obj [("properties",
        obj [("n", null_node); ("s", string_node); ("i", integer_node)])].

(** A default on a node without a type, and an object whose only
    descendant is typed null. *)
Definition untyped_node : pyval := obj [("default", PInt 5)].
Definition object_of_null : pyval :=
  obj [("type", str "object");
       ("properties", obj [("n", obj [("type", str "null")])])].

Definition untyped_and_null_child : pyval :=
  obj [("properties", obj [("p", untyped_node); ("a", object_of_null)])].

(** A pointer through a number, and a pointer to a definition that is not
    there. *)
Definition pointer_through_number : pyval :=
  obj [("properties", obj [("p", obj [("$ref", str "#/a/b")])]);
       ("a", PInt 5)].

Definition pointer_to_missing : pyval :=
  obj [("properties", obj [("p", obj [("$ref", str "#/definitions/Missing")])]);
       ("definitions", obj [("Point", point)])].

(** An object, and a sibling that points into the properties the descent
    into the object leaves behind. *)
Definition object_node : pyval :=
  obj [("type", str "object");
       ("properties", obj [("x", obj [("type", str "null")])])].

Definition sibling_pointer : pyval :=
  obj [("properties",
        obj [("a", object_node); ("b", obj [("$ref", str "#/properties/x")])])].

Definition sibling_pointer_after : pyval :=
  obj [("properties", obj [("x", obj [("type", str "null")])])].

(** A schema that declares nothing, and one without properties. *)
Definition only_a_string : pyval := obj [("properties", obj [("s", string_node)])].
Definition no_properties : pyval := obj [("type", str "object")].

(** * Further specifications *)

(** ** Strings of a value *)

Definition is_bytes (s : pystr) : bool :=
  match s with
  | Bytes _ => true
  | Text _ => false
  end.

Definition is_text (s : pystr) : bool :=
  match s with
  | Text _ => true
  | Bytes _ => false
  end.

(** [all_strings p v]: every string inside [v], the keys of its dicts among
    them, satisfies [p]. *)
Fixpoint all_strings (p : pystr -> bool) (v : pyval) : bool :=
  match v with
  | PStr s => p s
  | PList l =>
      (fix all (l : list pyval) : bool :=
         match l with
         | [] => true
         | x :: l' => all_strings p x && all l'
         end) l
  | PDict d =>
      (fix all (l : pydict) : bool :=
         match l with
         | [] => true
         | (k, x) :: l' => p k && all_strings p x && all l'
         end) d
  | _ => true
  end.

(** The strings of a re-encoded value are byte strings; those of a document
    that [json.load] returns are text. *)
Definition all_bytes : pyval -> bool := all_strings is_bytes.
Definition all_text : pyval -> bool := all_strings is_text.

(** [no_strings v]: there is no string inside [v], not even a key. *)
Definition no_strings : pyval -> bool := all_strings (fun _ => false).

(** ** Local pointers that lead somewhere

    [at_path defPath d]: the value found by taking the keys [defPath] one
    after the other, from [d] down through dicts. *)

Section Paths.

Variable E : environment.

Fixpoint at_path (defPath : list pystr) (d : pyval) : option pyval :=
  match defPath with
  | [] => Some d
  | key :: defPath' =>
      match d with
      | PDict m =>
          match lookup E key m with
          | Some v => at_path defPath' v
          | None => None
          end
      | _ => None
      end
  end.

(** ** Dicts as Python keeps them

    [keys_distinct d]: no two keys of [d] are equal. [well_keyed v]: so it
    is for every dict inside [v]. *)

Fixpoint keys_distinct (d : pydict) : bool :=
  match d with
  | [] => true
  | (k, _) :: d' => negb (has_key E k d') && keys_distinct d'
  end.

Fixpoint well_keyed (v : pyval) : bool :=
  match v with
  | PList l =>
      (fix all (l : list pyval) : bool :=
         match l with
         | [] => true
         | x :: l' => well_keyed x && all l'
         end) l
  | PDict d =>
      keys_distinct d
      && (fix all (l : pydict) : bool :=
            match l with
            | [] => true
            | (_, x) :: l' => well_keyed x && all l'
            end) d
  | _ => true
  end.

End Paths.

(** ** References that do not look under [properties]

    [walked ref]: the keys that the walk of the local pointer [ref] takes,
    one after the other. [outside_properties j]: the property [j] is not a
    local reference whose walk starts under [properties], or takes no key
    at all and stops at the object bound to [schema]. *)

Section Outside.

Variable E : environment.

Definition walked (ref : pyval) : list pystr :=
  match ref with
  | PStr (Text s) => tl (map Text (split "/" s))
  | PStr (Bytes s) => tl (map Bytes (split "/" s))
  | _ => []
  end.

Definition outside_properties (j : pyval) : bool :=
  match j with
  | PDict n =>
      match lookup E (lit E "$ref") n with
      | Some ref =>
          match startswith E ref "file:" with
          | Ok false =>
              match walked ref with
              | key :: _ => negb (str_eqb E (lit E "properties") key)
              | [] => false
              end
          | _ => true
          end
      | None => true
      end
  | _ => true
  end.

End Outside.

(** ** Order of the keys *)

(** [subseq l l']: [l] is [l'] with some elements left out. *)
Inductive subseq {A : Type} : list A -> list A -> Prop :=
| subseq_nil : subseq [] []
| subseq_skip x l l' : subseq l l' -> subseq l (x :: l')
| subseq_keep x l l' : subseq l l' -> subseq (x :: l) (x :: l').

Fixpoint no_slash (s : string) : bool :=
  match s with
  | EmptyString => true
  | String c s' => negb (Ascii.eqb c "/") && no_slash s'
  end.

(** ** The two comprehensions of [change_encoding] *)

Section Comprehensions.

Variable E : environment.
Variable encoding : string.

(** [[(change_encoding(key, encoding), change_encoding(value, encoding))
      for key, value in iteritems(jsonObject)]] *)
Fixpoint encode_items (l : pydict) : result (list (pystr * pyval)) :=
  match l with
  | [] => Ok []
  | (key, value) :: l' =>
      k <- encode_string E key encoding ;;
      v <- change_encoding E value encoding ;;
      r <- encode_items l' ;;
      Ok ((k, v) :: r)
  end.

(** [[change_encoding(i, encoding) for i in jsonObject]] *)
Fixpoint encode_elems (l : list pyval) : result (list pyval) :=
  match l with
  | [] => Ok []
  | i :: l' =>
      v <- change_encoding E i encoding ;;
      r <- encode_elems l' ;;
      Ok (v :: r)
  end.

End Comprehensions.

(** ** [change_encoding] and the recursion limit

    [change_encoding] above does not count its nested calls: it is what the
    source returns whenever the interpreter's limit on them is not reached.
    [change_encoding_within depth] counts them: with [depth] nested calls
    still allowed, each call takes one, the calls on the keys of a dict
    among them, and a call that has none left is Python's
    [RecursionError]. Only the calls of [change_encoding] are counted: the
    frame that Python 3 before 3.12 gives to a list comprehension is not,
    so that [depth] is the limit up to a factor of two. *)

Section Budget.

Variable E : environment.
Variable encoding : string.

(** The two comprehensions, over any way to re-encode a key and a value. *)
Fixpoint map_items (on_key : pystr -> result pystr)
  (on_value : pyval -> result pyval) (l : pydict)
  : result (list (pystr * pyval)) :=
  match l with
  | [] => Ok []
  | (key, value) :: l' =>
      k <- on_key key ;;
      v <- on_value value ;;
      r <- map_items on_key on_value l' ;;
      Ok ((k, v) :: r)
  end.

Fixpoint map_elems (on_value : pyval -> result pyval) (l : list pyval)
  : result (list pyval) :=
  match l with
  | [] => Ok []
  | i :: l' =>
      v <- on_value i ;;
      r <- map_elems on_value l' ;;
      Ok (v :: r)
  end.

(** [change_encoding(key, encoding)] for a key, which is a string: a call
    that goes to the [basestring] branch. *)
Definition encode_key (depth : nat) (key : pystr) : result pystr :=
  match depth with
  | O => Err RecursionError
  | S _ => encode_string E key encoding
  end.

Fixpoint change_encoding_within (depth : nat) (jsonObject : pyval)
  {struct depth} : result pyval :=
  match depth with
  | O => Err RecursionError
  | S depth' =>
      match jsonObject with
      | PDict d =>
          pairs <- map_items (encode_key depth')
                     (change_encoding_within depth') d ;;
          Ok (PDict (dict E pairs))
      | PList l =>
          l' <- map_elems (change_encoding_within depth') l ;;
          Ok (PList l')
      | PStr s => s' <- encode_string E s encoding ;; Ok (PStr s')
      | _ => Ok jsonObject
      end
  end.

End Budget.

(** [height v]: the nested calls that [change_encoding] needs on [v]. *)
Fixpoint height (v : pyval) : nat :=
  match v with
  | PList l =>
      S ((fix deepest (l : list pyval) : nat :=
            match l with
            | [] => 0
            | x :: l' => Nat.max (height x) (deepest l')
            end) l)
  | PDict d =>
      S ((fix deepest (l : pydict) : nat :=
            match l with
            | [] => 0
            | (_, x) :: l' => Nat.max (height x) (deepest l')
            end) d)
  | _ => 1
  end.

(** [as_bytes v]: [v] with every text string replaced by the byte string of
    the same characters. *)
Fixpoint as_bytes (v : pyval) : pyval :=
  match v with
  | PStr s => PStr (Bytes (raw s))
  | PList l =>
      PList ((fix go (l : list pyval) : list pyval :=
                match l with
                | [] => []
                | x :: l' => as_bytes x :: go l'
                end) l)
  | PDict d =>
      PDict ((fix go (l : pydict) : pydict :=
                match l with
                | [] => []
                | (k, x) :: l' => (Bytes (raw k), as_bytes x) :: go l'
                end) d)
  | _ => v
  end.

Definition ascii_text (s : pystr) : bool := is_text s && is_ascii (raw s).

(** ** More example documents *)

(** [ext_json] re-encoded. *)
Definition ext_json_bytes : pyval :=
  PDict [(Bytes "type", PStr (Bytes "integer")); (Bytes "default", PInt 7)].

(** A value without strings. *)
(** A reference to [Point] or its body at the property [p], after a
    property [q]. *)
Definition reference_to_point : pyval :=
  obj [("$ref", str "#/definitions/Point")].

Definition reference_to_site : pyval := obj [("$ref", str "#/properties/p")].

Definition point_after (sibling site : pyval) : pyval :=
  obj [("properties", obj [("q", sibling); ("p", site)]);
       ("definitions", obj [("Point", point)])].

Definition numbers_only : pyval := PList [PInt 1; PNone; PBool true; PDict []].

(** A type the code does not know, an object without properties, a
    property that is a number, and a reference to a file that is not
    there. *)
Definition unknown_type : pyval :=
  obj [("properties", obj [("u", obj [("type", str "enum"); ("default", PInt 1)])])].

Definition object_without_properties : pyval :=
  obj [("properties", obj [("o", obj [("type", str "object")])])].

Definition number_as_property : pyval :=
  obj [("properties", obj [("x", PInt 5)])].

Definition missing_file : pyval :=
  obj [("properties", obj [("p", obj [("$ref", str "file:missing.json")])])].

(** [point_by_reference] as a call leaves it. *)
Definition point_by_reference_after (name : pystr) : pyval :=
  PDict [(Text "properties",
          obj [("x", obj [("type", str "integer"); ("default", PInt 0)])]);
         (Text "definitions", obj [("Point", point)])].

(** [untyped_and_null_child] at the nested call, and as the call leaves
    it. *)
Definition null_child_only : pyval :=
  obj [("properties", obj [("n", obj [("type", str "null")])])].

(** * Properties *)

(** ** Equality of strings *)

Section Strings.

Variable E : environment.

Lemma str_eqb_refl (a : pystr) : str_eqb E a a = true.
Proof. destruct a; simpl; apply String.eqb_refl. Qed.

Lemma str_eqb_sym (a b : pystr) : str_eqb E a b = str_eqb E b a.
Proof.
  destruct a as [x|x], b as [y|y]; simpl;
    rewrite (String.eqb_sym x y); reflexivity.
Qed.

Lemma str_eqb_trans (a b c : pystr) :
  str_eqb E a b = true -> str_eqb E b c = true -> str_eqb E a c = true.
Proof.
  destruct a as [x|x], b as [y|y], c as [z|z]; simpl;
    rewrite ?andb_true_iff, ?String.eqb_eq;
    intros; repeat match goal with H : _ /\ _ |- _ => destruct H end;
    subst; repeat split; auto.
Qed.

Lemma str_eqb_false_l (a b c : pystr) :
  str_eqb E b a = true -> str_eqb E a c = false -> str_eqb E b c = false.
Proof.
  intros Hba Hac. destruct (str_eqb E b c) eqn:Hbc; [|reflexivity].
  rewrite str_eqb_sym in Hba.
  rewrite (str_eqb_trans _ _ _ Hba Hbc) in Hac. discriminate.
Qed.

(** Two literals that a value equals are the same literal. *)
Lemma lit_inj (a b : string) : str_eqb E (lit E a) (lit E b) = true -> a = b.
Proof.
  unfold lit. destruct (py3 E); simpl; apply String.eqb_eq.
Qed.

Lemma eq_lit_unique (v : pyval) (a b : string) :
  eq_lit E v a = true -> eq_lit E v b = true -> a = b.
Proof.
  destruct v; simpl; try discriminate. intros Ha Hb.
  apply lit_inj. rewrite str_eqb_sym in Ha. eapply str_eqb_trans; eauto.
Qed.

Lemma eq_lit_other (v : pyval) (a b : string) :
  eq_lit E v a = true -> a <> b -> eq_lit E v b = false.
Proof.
  intros Ha Hab. destruct (eq_lit E v b) eqn:Hb; [|reflexivity].
  elim Hab. eapply eq_lit_unique; eauto.
Qed.

Lemma in_lits_true (v : pyval) (ls : list string) :
  in_lits E v ls = true <-> exists a, In a ls /\ eq_lit E v a = true.
Proof. unfold in_lits. apply existsb_exists. Qed.

Lemma in_lits_other (v : pyval) (a : string) (ls : list string) :
  eq_lit E v a = true -> ~ In a ls -> in_lits E v ls = false.
Proof.
  intros Ha Hn. destruct (in_lits E v ls) eqn:H; [|reflexivity].
  apply in_lits_true in H as (b & Hb & Hvb).
  rewrite (eq_lit_unique _ _ _ Ha Hvb) in Hn. contradiction.
Qed.

End Strings.

(** ** Dictionaries *)

Section Dictionaries.

Variable E : environment.

Lemma lookup_dict_set_same (d : pydict) (k : pystr) (v : pyval) :
  lookup E k (dict_set E d k v) = Some v.
Proof.
  induction d as [|[k0 v0] d IH]; simpl.
  - now rewrite str_eqb_refl.
  - destruct (str_eqb E k0 k) eqn:Hk; simpl; now rewrite Hk.
Qed.

Lemma lookup_dict_set_other (d : pydict) (k k' : pystr) (v : pyval) :
  str_eqb E k k' = false ->
  lookup E k' (dict_set E d k v) = lookup E k' d.
Proof.
  intros Hkk'. induction d as [|[k0 v0] d IH]; simpl.
  - now rewrite Hkk'.
  - destruct (str_eqb E k0 k) eqn:Hk; simpl.
    + now rewrite (str_eqb_false_l E _ _ _ Hk Hkk').
    + now rewrite IH.
Qed.

Lemma has_key_lookup (k : pystr) (d : pydict) :
  has_key E k d = match lookup E k d with Some _ => true | None => false end.
Proof.
  induction d as [|[k0 v0] d IH]; simpl; [reflexivity|].
  destruct (str_eqb E k0 k); simpl; auto.
Qed.

Lemma has_key_keys (k : pystr) (d : pydict) :
  existsb (fun k' => str_eqb E k' k) (map fst d) = has_key E k d.
Proof.
  unfold has_key. induction d as [|[k0 v0] d IH]; simpl; congruence.
Qed.

Lemma has_key_dict_set (d : pydict) (i k : pystr) (v : pyval) :
  has_key E k (dict_set E d i v) = has_key E k d || str_eqb E i k.
Proof.
  rewrite !has_key_lookup.
  destruct (str_eqb E i k) eqn:Hik.
  - rewrite orb_true_r.
    assert (H : exists v', lookup E k (dict_set E d i v) = Some v').
    { clear - Hik. induction d as [|[k0 v0] d IH]; simpl.
      - rewrite Hik. eauto.
      - destruct (str_eqb E k0 i) eqn:H0; simpl.
        + rewrite (str_eqb_trans E _ _ _ H0 Hik). eauto.
        + destruct (str_eqb E k0 k); eauto. }
    destruct H as [v' H].
    now rewrite H.
  - rewrite orb_false_r. now rewrite lookup_dict_set_other.
Qed.

Lemma dict_set_not_empty (d : pydict) (k : pystr) (v : pyval) :
  dict_set E d k v <> [].
Proof.
  destruct d as [|[k0 v0] d]; simpl; [discriminate|].
  destruct (str_eqb E k0 k); discriminate.
Qed.

Lemma lookup_in (k : pystr) (d : pydict) (v : pyval) :
  lookup E k d = Some v -> exists k', In (k', v) d /\ str_eqb E k' k = true.
Proof.
  induction d as [|[k0 v0] d IH]; simpl; [discriminate|].
  destruct (str_eqb E k0 k) eqn:Hk.
  - intros [= ->]. eauto.
  - intros H. destruct (IH H) as (k' & Hin & Hk'). eauto.
Qed.

End Dictionaries.

(** ** The loop and its body *)

(** Replays the calls whose results are among the hypotheses. *)
Ltac run :=
  repeat match goal with
  | H : ?m = Ok _ |- context [bind ?m _] => rewrite H; cbn [bind]
  end.

Section Extraction.

Variable E : environment.
Variable newEncoding externalRefLoc : option string.

Local Abbreviation resolve := (resolve E newEncoding externalRefLoc).
Local Abbreviation loop_body := (loop_body E newEncoding externalRefLoc).
Local Abbreviation loop := (loop E newEncoding externalRefLoc).
Local Abbreviation extract_schema_defaults :=
  (extract_schema_defaults E newEncoding externalRefLoc).
Local Abbreviation dispatched := (dispatched E).
Local Abbreviation bare := (bare E).
Local Abbreviation at_path := (at_path E).
Local Abbreviation ref_free := (ref_free E).
Local Abbreviation contributes := (contributes E).
Local Abbreviation quiet := (quiet E newEncoding externalRefLoc).
Local Abbreviation settled := (settled E newEncoding externalRefLoc).
Local Abbreviation walk_fails := (walk_fails E).
Local Abbreviation walk_stumbles := (walk_stumbles E).
Local Abbreviation load_external :=
  (load_external E newEncoding externalRefLoc).
Local Abbreviation reaches := (reaches E newEncoding externalRefLoc).
Local Abbreviation listed := (listed E newEncoding externalRefLoc).

Lemma bind_ok {A B : Type} (m : result A) (k : A -> result B) (b : B) :
  bind m k = Ok b -> exists a, m = Ok a /\ k a = Ok b.
Proof. destruct m; simpl; [eauto|discriminate]. Qed.

Lemma loop_app (self : pyval -> result frame) (xs ys : pydict) (st : frame) :
  loop self (xs ++ ys)%list st = (st' <- loop self xs st ;; loop self ys st').
Proof.
  revert st. induction xs as [|[i j] xs IH]; intros st; simpl; [reflexivity|].
  destruct (loop_body self i j st); simpl; auto.
Qed.

Lemma extract_unfold depth schema :
  extract_schema_defaults (S depth) schema =
  (properties <- py_get E schema (lit E "properties") ;;
   items <- iteritems properties ;;
   loop (extract_schema_defaults depth) items ([], false, schema)).
Proof. reflexivity. Qed.

(** *** The branches of the type dispatch *)

Section Branches.

Variable self : pyval -> result frame.
Variables (i : pystr) (j n t : pyval).
Variables (schemaDefaults : pydict) (defaultsFound : bool) (schema : pyval).
Hypothesis Hresolve : resolve schema j = Ok n.
Hypothesis Htype : py_get E n (lit E "type") = Ok t.

Lemma body_object :
  eq_lit E t "object" = true ->
  loop_body self i j (schemaDefaults, defaultsFound, schema) =
  (properties <- py_getitem E n (lit E "properties") ;;
   schema' <- py_setitem E schema (lit E "properties") properties ;;
   r <- self schema' ;;
   let '(elementDefaults, defaultExtracted, schema'') := r in
   if (defaultExtracted : bool) then
     Ok (dict_set E schemaDefaults i (PDict elementDefaults), true, schema'')
   else Ok (schemaDefaults, defaultsFound, schema'')).
Proof.
  intros Ht. unfold loop_body. rewrite Hresolve. cbn [bind].
  rewrite Htype. cbn [bind]. rewrite Ht. reflexivity.
Qed.

Lemma body_basic :
  in_lits E t basic_types = true ->
  loop_body self i j (schemaDefaults, defaultsFound, schema) =
  (default <- py_get E n (lit E "default") ;;
   match default with
   | PNone => Ok (schemaDefaults, defaultsFound, schema)
   | _ => Ok (dict_set E schemaDefaults i default, true, schema)
   end).
Proof.
  intros Ht. unfold loop_body. rewrite Hresolve. cbn [bind].
  rewrite Htype. cbn [bind].
  destruct (proj1 (in_lits_true E _ _) Ht) as (a & Ha & Hta).
  rewrite (eq_lit_other E _ _ "object" Hta).
  - now rewrite Ht.
  - simpl in Ha. intuition (subst; discriminate).
Qed.

Lemma body_null :
  eq_lit E t "null" = true ->
  loop_body self i j (schemaDefaults, defaultsFound, schema) =
  Ok (dict_set E schemaDefaults i PNone, true, schema).
Proof.
  intros Ht. unfold loop_body. rewrite Hresolve. cbn [bind].
  rewrite Htype. cbn [bind].
  rewrite (eq_lit_other E _ _ "object" Ht) by discriminate.
  rewrite (in_lits_other E _ _ basic_types Ht).
  - now rewrite Ht.
  - simpl. intuition discriminate.
Qed.

Lemma body_other :
  eq_lit E t "object" = false ->
  in_lits E t basic_types = false ->
  eq_lit E t "null" = false ->
  loop_body self i j (schemaDefaults, defaultsFound, schema) =
  Ok (schemaDefaults, defaultsFound, schema).
Proof.
  intros H1 H2 H3. unfold loop_body. rewrite Hresolve. cbn [bind].
  rewrite Htype. cbn [bind]. now rewrite H1, H2, H3.
Qed.

End Branches.

Lemma loop_body_dispatched self i j defs found schema st' :
  loop_body self i j (defs, found, schema) = Ok st' <->
  exists n t,
    resolve schema j = Ok n /\ py_get E n (lit E "type") = Ok t /\
    dispatched self i n t (defs, found, schema) st'.
Proof.
  split.
  - intros H.
    destruct (resolve schema j) as [n|e] eqn:Hn;
      [|unfold loop_body in H; rewrite Hn in H; discriminate].
    destruct (py_get E n (lit E "type")) as [t|e] eqn:Ht;
      [|unfold loop_body in H; rewrite Hn in H; cbn [bind] in H;
        rewrite Ht in H; discriminate].
    exists n, t. repeat split; auto.
    destruct (eq_lit E t "object") eqn:Hobj.
    { rewrite (body_object _ _ _ _ _ _ _ _ Hn Ht Hobj) in H.
      apply bind_ok in H as (properties & Hp & H).
      apply bind_ok in H as (schema' & Hs & H).
      apply bind_ok in H as ([[nested extracted] schema''] & Hr & H).
      destruct extracted; injection H as <-.
      - eapply dispatched_object_found; eauto.
      - eapply dispatched_object_empty; eauto. }
    destruct (in_lits E t basic_types) eqn:Hbasic.
    { rewrite (body_basic _ _ _ _ _ _ _ _ Hn Ht Hbasic) in H.
      apply bind_ok in H as (default & Hd & H).
      destruct default; injection H as <-;
        solve [ now apply dispatched_basic_none
              | apply dispatched_basic_default; auto; discriminate ]. }
    destruct (eq_lit E t "null") eqn:Hnull.
    { rewrite (body_null _ _ _ _ _ _ _ _ Hn Ht Hnull) in H. injection H as <-.
      now apply dispatched_null. }
    rewrite (body_other _ _ _ _ _ _ _ _ Hn Ht Hobj Hbasic Hnull) in H.
    injection H as <-. now apply dispatched_other.
  - intros (n & t & Hn & Ht & H).
    inversion H as [| | ? ? ? ? ? ? H6 | | |]; subst; clear H.
    + rewrite (body_object _ _ _ _ _ _ _ _ Hn Ht) by assumption. now run.
    + rewrite (body_object _ _ _ _ _ _ _ _ Hn Ht) by assumption. now run.
    + rewrite (body_basic _ _ _ _ _ _ _ _ Hn Ht) by assumption. run.
      destruct default; reflexivity || now elim H6.
    + rewrite (body_basic _ _ _ _ _ _ _ _ Hn Ht) by assumption. now run.
    + now rewrite (body_null _ _ _ _ _ _ _ _ Hn Ht).
    + now rewrite (body_other _ _ _ _ _ _ _ _ Hn Ht).
Qed.

(** ** The flag and the document *)

Lemma dispatched_found self i n t defs found schema defs' found' schema' :
  dispatched self i n t (defs, found, schema) (defs', found', schema') ->
  (found = true <-> defs <> []) -> (found' = true <-> defs' <> []).
Proof.
  intros H Hinv. inversion H; subst; auto;
    (split; [intros _; apply dict_set_not_empty | reflexivity]).
Qed.

Lemma loop_found self items defs found schema defs' found' schema' :
  loop self items (defs, found, schema) = Ok (defs', found', schema') ->
  (found = true <-> defs <> []) -> (found' = true <-> defs' <> []).
Proof.
  revert defs found schema.
  induction items as [|[i j] items IH]; intros defs found schema H Hinv.
  - simpl in H. now injection H as <- <- <-.
  - simpl in H. apply bind_ok in H as ([[defs1 found1] schema1] & Hbody & H).
    apply loop_body_dispatched in Hbody as (n & t & _ & _ & Hd).
    eapply IH; eauto using dispatched_found.
Qed.

Lemma extract_found depth schema defs found schema' :
  extract_schema_defaults depth schema = Ok (defs, found, schema') ->
  (found = true <-> defs <> []).
Proof.
  destruct depth as [|depth]; simpl; [discriminate|]. intros H.
  apply bind_ok in H as (properties & _ & H).
  apply bind_ok in H as (items & _ & H).
  eapply loop_found; eauto. split; [discriminate|congruence].
Qed.

(** ** A schema without [properties] *)

(** C8: a call on a schema that has no [properties] entry raises
    AttributeError, whatever the other arguments are; it returns no pair. *)
Theorem missing_properties_raises depth schema :
  (forall d, schema = PDict d -> lookup E (lit E "properties") d = None) ->
  extract_schema_defaults (S depth) schema = Err AttributeError.
Proof.
  intros H. simpl. destruct schema; try reflexivity.
  simpl. now rewrite (H d eq_refl).
Qed.

(** ** The depth budget

    A call that returns with some budget returns the same with any larger
    one. *)

Lemma dispatched_mono self self' i n t st st' :
  (forall s r, self s = Ok r -> self' s = Ok r) ->
  dispatched self i n t st st' -> dispatched self' i n t st st'.
Proof.
  intros Hself H. inversion H; subst.
  - eapply dispatched_object_found; eauto.
  - eapply dispatched_object_empty; eauto.
  - now apply dispatched_basic_default.
  - now apply dispatched_basic_none.
  - now apply dispatched_null.
  - now apply dispatched_other.
Qed.

Lemma loop_mono self self' items :
  (forall s r, self s = Ok r -> self' s = Ok r) ->
  forall st st', loop self items st = Ok st' -> loop self' items st = Ok st'.
Proof.
  intros Hself. induction items as [|[i j] items IH]; intros st st' H; auto.
  simpl in *. apply bind_ok in H as (st1 & Hbody & H).
  destruct st as [[defs found] schema].
  apply loop_body_dispatched in Hbody as (n & t & Hn & Ht & Hd).
  assert (Hbody' : loop_body self' i j (defs, found, schema) = Ok st1).
  { apply loop_body_dispatched. exists n, t.
    repeat split; auto. eapply dispatched_mono; eauto. }
  rewrite Hbody'. simpl. auto.
Qed.

Lemma extract_deeper depth : forall schema st,
  extract_schema_defaults depth schema = Ok st ->
  extract_schema_defaults (S depth) schema = Ok st.
Proof.
  induction depth as [|depth IH]; intros schema st H; [discriminate|].
  rewrite extract_unfold in H. rewrite extract_unfold.
  apply bind_ok in H as (properties & Hp & H). rewrite Hp. cbn [bind].
  apply bind_ok in H as (items & Hi & H). rewrite Hi. cbn [bind].
  eapply loop_mono; eauto.
Qed.

Lemma extract_enough depth depth' schema st :
  depth <= depth' ->
  extract_schema_defaults depth schema = Ok st ->
  extract_schema_defaults depth' schema = Ok st.
Proof.
  induction 1; auto using extract_deeper.
Qed.
(** ** Entries of the document *)

(** An iteration for a property of another name leaves an entry alone. *)
Lemma dispatched_lookup self i n t defs found schema defs' found' schema' k :
  dispatched self i n t (defs, found, schema) (defs', found', schema') ->
  str_eqb E i k = false ->
  lookup E k defs' = lookup E k defs.
Proof.
  intros H Hik. inversion H; subst; auto using lookup_dict_set_other.
Qed.

Lemma dispatched_found_mono self i n t defs found schema defs' found' schema' :
  dispatched self i n t (defs, found, schema) (defs', found', schema') ->
  found = true -> found' = true.
Proof. intros H Hf. inversion H; subst; auto. Qed.

Lemma dispatched_has_key self i n t defs found schema defs' found' schema' k :
  dispatched self i n t (defs, found, schema) (defs', found', schema') ->
  has_key E k defs = true -> has_key E k defs' = true.
Proof.
  intros H Hk. inversion H; subst; auto;
    rewrite has_key_dict_set, Hk; reflexivity.
Qed.

Lemma loop_lookup self items defs found schema defs' found' schema' k :
  loop self items (defs, found, schema) = Ok (defs', found', schema') ->
  has_key E k items = false ->
  lookup E k defs' = lookup E k defs.
Proof.
  revert defs found schema.
  induction items as [|[i j] items IH]; intros defs found schema H Hk.
  - simpl in H. now injection H as <- <- <-.
  - simpl in H. apply bind_ok in H as ([[defs1 found1] schema1] & Hbody & H).
    apply loop_body_dispatched in Hbody as (n & t & _ & _ & Hd).
    simpl in Hk. apply orb_false_elim in Hk as [Hik Hk].
    rewrite (IH _ _ _ H Hk). eapply dispatched_lookup; eauto.
Qed.

Lemma loop_found_mono self items defs found schema defs' found' schema' :
  loop self items (defs, found, schema) = Ok (defs', found', schema') ->
  found = true -> found' = true.
Proof.
  revert defs found schema.
  induction items as [|[i j] items IH]; intros defs found schema H Hf.
  - simpl in H. now injection H as <- <- <-.
  - simpl in H. apply bind_ok in H as ([[defs1 found1] schema1] & Hbody & H).
    apply loop_body_dispatched in Hbody as (n & t & _ & _ & Hd).
    eapply IH; eauto using dispatched_found_mono.
Qed.

Lemma loop_has_key self items defs found schema defs' found' schema' k :
  loop self items (defs, found, schema) = Ok (defs', found', schema') ->
  has_key E k defs = true -> has_key E k defs' = true.
Proof.
  revert defs found schema.
  induction items as [|[i j] items IH]; intros defs found schema H Hf.
  - simpl in H. now injection H as <- <- <-.
  - simpl in H. apply bind_ok in H as ([[defs1 found1] schema1] & Hbody & H).
    apply loop_body_dispatched in Hbody as (n & t & _ & _ & Hd).
    eapply IH; eauto using dispatched_has_key.
Qed.

(** The call splits at a property into the loop before it, its own
    iteration, and the loop after it. *)
Lemma extract_split depth schema before i j after st defs found schema' :
  py_get E schema (lit E "properties") = Ok (PDict (before ++ (i, j) :: after)) ->
  extract_schema_defaults (S depth) schema = Ok (defs, found, schema') ->
  reaches depth schema before st ->
  exists st',
    loop_body (extract_schema_defaults depth) i j st = Ok st' /\
    loop (extract_schema_defaults depth) after st' = Ok (defs, found, schema').
Proof.
  intros Hp H Hr. simpl in H. rewrite Hp in H. simpl in H.
  rewrite loop_app in H. unfold reaches in Hr. rewrite Hr in H.
  simpl in H. apply bind_ok in H as (st' & Hb & H). eauto.
Qed.

(** C2: a property whose resolved node has type ["null"] gets the entry
    [None], and the call reports that defaults were found, whether or not
    the node has a [default] entry of its own. The node is resolved in the
    frame in which the loop reaches the property; the names of a dict are
    distinct, so no later property has the same name. *)
Theorem null_typed_property depth schema before i j after st n t
    defs found schema' :
  py_get E schema (lit E "properties") = Ok (PDict (before ++ (i, j) :: after)) ->
  has_key E i after = false ->
  extract_schema_defaults (S depth) schema = Ok (defs, found, schema') ->
  reaches depth schema before st ->
  resolve (schema_of st) j = Ok n ->
  py_get E n (lit E "type") = Ok t ->
  eq_lit E t "null" = true ->
  lookup E i defs = Some PNone /\ found = true.
Proof.
  intros Hp Hafter H Hr Hn Ht Hnull.
  edestruct extract_split as (st' & Hb & Hl); [exact Hp|exact H|exact Hr|].
  destruct st as [[defs0 found0] schema0]. simpl in Hn.
  rewrite (body_null _ _ _ _ _ _ _ _ Hn Ht Hnull) in Hb. injection Hb as <-.
  split.
  - erewrite loop_lookup by eauto. apply lookup_dict_set_same.
  - eapply loop_found_mono; eauto.
Qed.

Lemma reaches_lookup depth schema before st k :
  reaches depth schema before st ->
  has_key E k before = false ->
  lookup E k (fst (fst st)) = None.
Proof.
  unfold reaches. destruct st as [[defs found] schema']. intros H Hk.
  erewrite loop_lookup by eassumption. reflexivity.
Qed.

(** C3: for a property whose resolved node has a basic type, the document
    has an entry exactly when the node has a [default] entry that is not
    [None]; the entry is then that value and the flag is set. The values
    [0], [False] and the empty string are defaults like any other. The
    names of a dict are distinct, so [i] names no other property. *)
Theorem basic_typed_property depth schema before i j after st node t
    defs found schema' :
  py_get E schema (lit E "properties") = Ok (PDict (before ++ (i, j) :: after)) ->
  has_key E i before = false ->
  has_key E i after = false ->
  extract_schema_defaults (S depth) schema = Ok (defs, found, schema') ->
  reaches depth schema before st ->
  resolve (schema_of st) j = Ok (PDict node) ->
  py_get E (PDict node) (lit E "type") = Ok t ->
  in_lits E t basic_types = true ->
  (has_key E i defs = true <->
   exists default,
     lookup E (lit E "default") node = Some default /\ default <> PNone)
  /\ (forall default,
        lookup E (lit E "default") node = Some default -> default <> PNone ->
        lookup E i defs = Some default /\ found = true)
  /\ (forall default,
        In default [PInt 0; PBool false; PStr (Text ""); PStr (Bytes "")] ->
        lookup E (lit E "default") node = Some default ->
        lookup E i defs = Some default /\ found = true).
Proof.
  intros Hp Hbefore Hafter H Hr Hn Ht Hbasic.
  edestruct extract_split as (st' & Hb & Hl); [exact Hp|exact H|exact Hr|].
  pose proof (reaches_lookup _ _ _ _ _ Hr Hbefore) as Hnone.
  destruct st as [[defs0 found0] schema0]. simpl in Hn, Hnone.
  rewrite (body_basic _ _ _ _ _ _ _ _ Hn Ht Hbasic) in Hb.
  simpl in Hb.
  assert (Hkept : forall default,
             lookup E (lit E "default") node = Some default ->
             default <> PNone ->
             lookup E i defs = Some default /\ found = true).
  { intros default Hd Hnn. rewrite Hd in Hb.
    assert (Hst : st' = (dict_set E defs0 i default, true, schema0))
      by (destruct default; congruence).
    subst st'. split.
    - erewrite loop_lookup by eauto. apply lookup_dict_set_same.
    - eapply loop_found_mono; eauto. }
  split; [|split].
  - rewrite has_key_lookup. split.
    + destruct (lookup E (lit E "default") node) as [default|] eqn:Hd.
      * destruct default; try (intros _; eexists; split; [reflexivity|discriminate]).
        injection Hb as <-. erewrite loop_lookup by eauto.
        rewrite Hnone. discriminate.
      * injection Hb as <-. erewrite loop_lookup by eauto.
        rewrite Hnone. discriminate.
    + intros (default & Hd & Hnn).
      destruct (Hkept default Hd Hnn) as [-> _]. reflexivity.
  - exact Hkept.
  - intros default Hin Hd. apply Hkept; auto.
    simpl in Hin. intuition (subst; discriminate).
Qed.

(** ** Which properties the document lists *)

Lemma listed_body depth i j defs found schema n st' k :
  resolve schema j = Ok n ->
  listed depth schema n ->
  loop_body (extract_schema_defaults depth) i j (defs, found, schema) = Ok st' ->
  str_eqb E i k = true ->
  has_key E k (fst (fst st')) = true.
Proof.
  intros Hn (t & Ht & Hcase) Hb Hik.
  destruct Hcase as [Hnull|[(Hbasic & default & Hd & Hnn)|(Hobj & Hrest)]].
  - rewrite (body_null _ _ _ _ _ _ _ _ Hn Ht Hnull) in Hb. injection Hb as <-.
    simpl. now rewrite has_key_dict_set, Hik, orb_true_r.
  - rewrite (body_basic _ _ _ _ _ _ _ _ Hn Ht Hbasic) in Hb.
    rewrite Hd in Hb. simpl in Hb.
    assert (Hst : st' = (dict_set E defs i default, true, schema))
      by (destruct default; congruence).
    subst st'. simpl. now rewrite has_key_dict_set, Hik, orb_true_r.
  - destruct Hrest as (properties & s1 & nested & f & s2 & Hp & Hs & Hx & Hne).
    rewrite (body_object _ _ _ _ _ _ _ _ Hn Ht Hobj) in Hb.
    rewrite Hp in Hb. cbn [bind] in Hb. rewrite Hs in Hb. cbn [bind] in Hb.
    rewrite Hx in Hb. cbn [bind] in Hb.
    apply extract_found in Hx. apply Hx in Hne. subst f.
    injection Hb as <-. simpl. now rewrite has_key_dict_set, Hik, orb_true_r.
Qed.

Lemma dispatched_listed depth i n t defs found schema defs' found' schema' k :
  py_get E n (lit E "type") = Ok t ->
  dispatched (extract_schema_defaults depth) i n t
    (defs, found, schema) (defs', found', schema') ->
  has_key E k defs' = true ->
  has_key E k defs = true \/ (str_eqb E i k = true /\ listed depth schema n).
Proof.
  intros Ht H Hk.
  inversion H as [ ? ? ? ? ? ? ? ? ? ? Hx | | ? ? ? ? ? ? Hnn | | | ];
    subst; auto;
    rewrite has_key_dict_set in Hk; apply orb_prop in Hk as [Hk|Hk]; auto;
    right; split; auto; exists t; split; auto.
  - right; right. split; auto.
    do 5 eexists. repeat split; eauto.
    apply extract_found in Hx. now apply Hx.
  - right; left. eauto.
Qed.

Lemma loop_listing depth items : forall defs0 found0 schema0 defs found schema k,
  loop (extract_schema_defaults depth) items (defs0, found0, schema0)
    = Ok (defs, found, schema) ->
  (has_key E k defs = true <->
   has_key E k defs0 = true \/
   exists before i j after st n,
     items = (before ++ (i, j) :: after)%list /\
     str_eqb E i k = true /\
     loop (extract_schema_defaults depth) before (defs0, found0, schema0)
       = Ok st /\
     resolve (schema_of st) j = Ok n /\
     listed depth (schema_of st) n).
Proof.
  induction items as [|[i0 j0] items IH]; intros defs0 found0 schema0 defs found schema k H.
  - simpl in H. injection H as <- <- <-. split; auto.
    intros [Hk|(before & i & j & after & _ & _ & Heq & _)]; auto.
    destruct before; discriminate.
  - simpl in H. apply bind_ok in H as ([[defs1 found1] schema1] & Hbody & H).
    rewrite (IH _ _ _ _ _ _ k H). clear IH. split.
    + intros [Hk|(before & i & j & after & st & n & -> & Hik & Hl & Hn & Hlisted)].
      * pose proof Hbody as Hb.
        apply loop_body_dispatched in Hb as (n & t & Hn & Ht & Hd).
        destruct (dispatched_listed _ _ _ _ _ _ _ _ _ _ _ Ht Hd Hk) as [Hk0|[Hik Hlisted]]; auto.
        right. exists [], i0, j0, items, (defs0, found0, schema0), n.
        repeat split; auto.
      * right. exists ((i0, j0) :: before), i, j, after, st, n.
        repeat split; auto. simpl. now rewrite Hbody.
    + intros [Hk|(before & i & j & after & st & n & Heq & Hik & Hl & Hn & Hlisted)].
      * left. apply loop_body_dispatched in Hbody as (n & t & _ & _ & Hd).
        eapply dispatched_has_key; eauto.
      * destruct before as [|x before]; simpl in Heq; inversion Heq; subst; clear Heq.
        -- simpl in Hl. injection Hl as <-. left.
           apply (listed_body _ _ _ _ _ _ _ _ _ Hn Hlisted Hbody Hik).
        -- simpl in Hl. rewrite Hbody in Hl. simpl in Hl. right.
           exists before, i, j, after, st, n. repeat split; auto.
Qed.

Lemma extract_listing depth schema items defs found schema' k :
  py_get E schema (lit E "properties") = Ok (PDict items) ->
  extract_schema_defaults (S depth) schema = Ok (defs, found, schema') ->
  (has_key E k defs = true <->
   exists before i j after st n,
     items = (before ++ (i, j) :: after)%list /\
     str_eqb E i k = true /\
     reaches depth schema before st /\
     resolve (schema_of st) j = Ok n /\
     listed depth (schema_of st) n).
Proof.
  intros Hp H. simpl in H. rewrite Hp in H. simpl in H.
  rewrite (loop_listing _ _ _ _ _ _ _ _ k H). simpl. split.
  - intros [Hk|Hk]; [discriminate|exact Hk].
  - auto.
Qed.

(** C1, as the code has it: the document of a call that returns lists a
    name exactly when some property of that name has a resolved node that is
    typed ["null"], or has a basic type and a [default] entry other than
    [None], or is typed ["object"] and has properties of its own whose
    nested document is not empty. The node is resolved in the frame in
    which the loop reaches the property. *)
Theorem listing_invariant depth schema items defs found schema' k :
  py_get E schema (lit E "properties") = Ok (PDict items) ->
  extract_schema_defaults (S depth) schema = Ok (defs, found, schema') ->
  (has_key E k defs = true <->
   exists before i j after st n,
     items = (before ++ (i, j) :: after)%list /\
     str_eqb E i k = true /\
     reaches depth schema before st /\
     resolve (schema_of st) j = Ok n /\
     listed depth (schema_of st) n).
Proof. apply extract_listing. Qed.

(** ** Schemas that declare nothing yield nothing *)

Lemma bare_dict (d : pydict) :
  bare (PDict d) =
  negb (has_key E (lit E "default") d)
  && negb (eq_lit E (type_of E d) "null")
  && forallb (fun kv => bare (snd kv)) d.
Proof.
  simpl. f_equal. induction d as [|[k v] d IH]; simpl; congruence.
Qed.

Lemma bare_lookup (d : pydict) (k : pystr) (v : pyval) :
  bare (PDict d) = true -> lookup E k d = Some v -> bare v = true.
Proof.
  rewrite bare_dict, !andb_true_iff. intros [_ Hall] Hk.
  apply lookup_in in Hk as (k' & Hin & _).
  rewrite forallb_forall in Hall. apply (Hall _ Hin).
Qed.

Lemma bare_get (o v : pyval) (k : pystr) :
  bare o = true -> py_get E o k = Ok v -> bare v = true.
Proof.
  destruct o; simpl py_get; try discriminate. intros Hb [= <-].
  destruct (lookup E k d) eqn:Hk; [eapply bare_lookup; eauto|reflexivity].
Qed.

Lemma bare_getitem (o v : pyval) (k : pystr) :
  bare o = true -> py_getitem E o k = Ok v -> bare v = true.
Proof.
  destruct o; simpl py_getitem; try discriminate. intros Hb.
  destruct (lookup E k d) eqn:Hk; [|discriminate].
  intros [= <-]. eapply bare_lookup; eauto.
Qed.

Lemma lit_distinct (a b : string) : a <> b -> str_eqb E (lit E a) (lit E b) = false.
Proof.
  intros Hab. destruct (str_eqb E (lit E a) (lit E b)) eqn:H; [|reflexivity].
  elim Hab. now apply lit_inj with (E := E).
Qed.

Lemma forallb_dict_set (P : pystr * pyval -> bool) (d : pydict) k v :
  (forall k', P (k', v) = true) ->
  forallb P d = true -> forallb P (dict_set E d k v) = true.
Proof.
  intros Hv. induction d as [|[k0 v0] d IH]; simpl.
  - intros _. now rewrite Hv.
  - rewrite andb_true_iff. intros [H0 Hd].
    destruct (str_eqb E k0 k); simpl; rewrite ?Hv, ?H0; auto.
Qed.

Lemma bare_setitem (schema v schema' : pyval) :
  bare schema = true -> bare v = true ->
  py_setitem E schema (lit E "properties") v = Ok schema' ->
  bare schema' = true.
Proof.
  destruct schema; simpl py_setitem; try discriminate.
  intros Hs Hv [= <-]. rewrite bare_dict in *.
  rewrite !andb_true_iff in *. destruct Hs as [[Hd Ht] Hall].
  repeat split.
  - rewrite has_key_dict_set, lit_distinct by discriminate.
    now rewrite orb_false_r.
  - unfold type_of in *.
    rewrite lookup_dict_set_other by (apply lit_distinct; discriminate).
    exact Ht.
  - apply forallb_dict_set; auto.
Qed.

Lemma bare_reduce_get (defPath : list pystr) : forall d n,
  bare d = true -> reduce_get E defPath d = Ok n -> bare n = true.
Proof.
  induction defPath as [|key defPath IH]; intros d n Hd; simpl.
  - now intros [= <-].
  - intros H. apply bind_ok in H as (d' & Hd' & H).
    apply (IH d' n); auto.
    destruct (truthy d).
    + eapply bare_get; eauto.
    + now injection Hd' as <-.
Qed.

Section Bare.

Hypothesis external_bare :
  forall ref doc, load_external ref = Ok doc -> bare doc = true.

Lemma bare_resolve (schema j n : pyval) :
  bare schema = true -> bare j = true ->
  resolve schema j = Ok n -> bare n = true.
Proof.
  intros Hs Hj H. unfold resolve in H.
  apply bind_ok in H as (keys & _ & H).
  destruct (existsb _ keys); [|now injection H as <-].
  apply bind_ok in H as (defPath & _ & H).
  apply bind_ok in H as (external & _ & H).
  destruct external; [exact (external_bare _ _ H)|].
  apply bind_ok in H as (ref & _ & H).
  apply bind_ok in H as (segments & _ & H).
  exact (bare_reduce_get _ _ _ Hs H).
Qed.

Lemma bare_no_default (n t : pyval) :
  bare n = true -> py_get E n (lit E "type") = Ok t ->
  py_get E n (lit E "default") = Ok PNone /\ eq_lit E t "null" = false.
Proof.
  destruct n; simpl py_get; try discriminate. intros Hb [= <-].
  rewrite bare_dict, !andb_true_iff, !negb_true_iff in Hb.
  destruct Hb as [[Hd Ht] _]. rewrite has_key_lookup in Hd. split.
  - destruct (lookup E (lit E "default") d); [discriminate|reflexivity].
  - exact Ht.
Qed.

Lemma loop_bare self items :
  (forall s r, bare s = true -> self s = Ok r ->
     fst r = ([], false) /\ bare (snd r) = true) ->
  forallb (fun kv => bare (snd kv)) items = true ->
  forall schema st,
    bare schema = true ->
    loop self items ([], false, schema) = Ok st ->
    fst st = ([], false) /\ bare (snd st) = true.
Proof.
  intros Hself. induction items as [|[i j] items IH]; intros Hall schema st Hs H.
  - simpl in H. injection H as <-. auto.
  - simpl in Hall. apply andb_true_iff in Hall as [Hj Hall].
    simpl in H. apply bind_ok in H as ([[defs1 found1] schema1] & Hbody & H).
    apply loop_body_dispatched in Hbody as (n & t & Hn & Ht & Hd).
    pose proof (bare_resolve _ _ _ Hs Hj Hn) as Hbn.
    destruct (bare_no_default _ _ Hbn Ht) as [Hdefault Hnull].
    assert (Hstep : (defs1, found1) = ([], false) /\ bare schema1 = true).
    { inversion Hd as [ ? ? ? ? ? ? ? ? Hp Hset Hx
                      | ? ? ? ? ? ? ? ? Hp Hset Hx
                      | ? ? ? ? ? Hdf Hnn | | | ]; subst; auto.
      - apply Hself in Hx as [Hx _]; [discriminate|].
        exact (bare_setitem _ _ _ Hs (bare_getitem _ _ _ Hbn Hp) Hset).
      - apply Hself in Hx as [_ Hx]; [auto|].
        exact (bare_setitem _ _ _ Hs (bare_getitem _ _ _ Hbn Hp) Hset).
      - congruence.
      - congruence. }
    destruct Hstep as [[= -> ->] Hs1]. eapply IH; eauto.
Qed.

Lemma extract_bare depth : forall schema st,
  bare schema = true ->
  extract_schema_defaults depth schema = Ok st ->
  fst st = ([], false) /\ bare (snd st) = true.
Proof.
  induction depth as [|depth IH]; intros schema st Hs H; [discriminate|].
  simpl in H.
  apply bind_ok in H as (properties & Hp & H).
  apply bind_ok in H as (items & Hi & H).
  eapply loop_bare; eauto.
  destruct properties; simpl in Hi; try discriminate. injection Hi as ->.
  pose proof (bare_get _ _ _ Hs Hp) as Hb. rewrite bare_dict in Hb.
  now rewrite !andb_true_iff in Hb.
Qed.

End Bare.

(** C10: when a call returns, the flag is set exactly when the document is
    not empty. In particular a schema in which no dict, at any depth, has a
    [default] entry or the type ["null"], and whose external references
    load documents of the same kind, yields the empty document and an
    unset flag. *)
Theorem found_iff_not_empty depth schema defs found schema' :
  extract_schema_defaults depth schema = Ok (defs, found, schema') ->
  (found = true <-> defs <> [])
  /\ (bare schema = true ->
      (forall ref doc, load_external ref = Ok doc -> bare doc = true) ->
      defs = [] /\ found = false).
Proof.
  intros H. split; [eapply extract_found; eauto|].
  intros Hs Hext. destruct (extract_bare Hext _ _ _ Hs H) as [[= -> ->] _]. auto.
Qed.

(** ** Local pointers that lead nowhere *)

Lemma reduce_get_none (defPath : list pystr) :
  reduce_get E defPath PNone = Ok PNone.
Proof. induction defPath; simpl; auto. Qed.

Lemma reduce_get_fails (defPath : list pystr) : forall d,
  walk_fails defPath d = true ->
  reduce_get E defPath d =
  if walk_stumbles defPath d then Err AttributeError else Ok PNone.
Proof.
  induction defPath as [|key defPath IH]; intros d; simpl; [discriminate|].
  destruct d as [| | | | | |m];
    try solve [intros _; simpl; auto using reduce_get_none
              |intros _; simpl;
               match goal with
               | |- context [if ?b then _ else _] => destruct b
               end; simpl; auto using reduce_get_none].
  destruct m as [|kv m].
  - intros _. simpl. apply reduce_get_none.
  - cbn [truthy py_get bind].
    destruct (lookup E key (kv :: m)) as [v|]; intros H.
    + now apply IH.
    + apply reduce_get_none.
Qed.

Lemma resolve_local (schema : pyval) (d : pydict) (ref : pyval)
    (segments : list pystr) :
  has_key E (lit E "$ref") d = true ->
  py_get E (PDict d) (lit E "$ref") = Ok ref ->
  startswith E ref "file:" = Ok false ->
  py_split E ref "/" = Ok segments ->
  resolve schema (PDict d) = reduce_get E (tl segments) schema.
Proof.
  intros Hk Hr Hs Hsp. unfold resolve. cbn [py_keys bind].
  rewrite has_key_keys, Hk, Hr. cbn [bind]. rewrite Hs. cbn [bind].
  now rewrite Hsp.
Qed.

(** C4, as the code has it: when the walk of a local pointer fails, the
    resolution yields [None] without raising unless the walk stumbled on a
    true value that is not a dict, in which case the resolution itself
    raises AttributeError; either way the iteration raises AttributeError,
    and so does the call whose loop reaches the property. *)
Theorem broken_local_reference depth schema before i d after st ref segments :
  py_get E schema (lit E "properties")
    = Ok (PDict (before ++ (i, PDict d) :: after)) ->
  reaches depth schema before st ->
  has_key E (lit E "$ref") d = true ->
  py_get E (PDict d) (lit E "$ref") = Ok ref ->
  startswith E ref "file:" = Ok false ->
  py_split E ref "/" = Ok segments ->
  walk_fails (tl segments) (schema_of st) = true ->
  resolve (schema_of st) (PDict d) =
    (if walk_stumbles (tl segments) (schema_of st)
     then Err AttributeError else Ok PNone)
  /\ py_get E PNone (lit E "type") = Err AttributeError
  /\ extract_schema_defaults (S depth) schema = Err AttributeError.
Proof.
  intros Hp Hreach Hk Hr Hs Hsp Hw.
  assert (Hres : resolve (schema_of st) (PDict d) =
                 (if walk_stumbles (tl segments) (schema_of st)
                  then Err AttributeError else Ok PNone)).
  { rewrite (resolve_local _ _ _ _ Hk Hr Hs Hsp). now apply reduce_get_fails. }
  split; [exact Hres|]. split; [reflexivity|].
  simpl. rewrite Hp. simpl. rewrite loop_app.
  unfold reaches in Hreach. rewrite Hreach. simpl.
  destruct st as [[defs0 found0] schema0]. simpl in Hres.
  unfold loop_body. rewrite Hres.
  destruct (walk_stumbles (tl segments) schema0); reflexivity.
Qed.

(** ** The object bound to [schema] *)

Lemma dispatched_schema self i n t defs found schema defs' found' schema' :
  dispatched self i n t (defs, found, schema) (defs', found', schema') ->
  eq_lit E t "object" = false ->
  schema' = schema.
Proof. intros H Ht. inversion H; subst; congruence. Qed.

(** A value equals at most one literal: closes the cases of the dispatch
    that two hypotheses on the type exclude. *)
Ltac clash :=
  match goal with
  | H1 : ?x = false, H2 : ?x = true |- _ => congruence
  | H1 : eq_lit ?E ?t ?a = true, H2 : eq_lit ?E ?t ?b = true |- _ =>
      let X := fresh in
      pose proof (eq_lit_unique E t a b H1 H2) as X; discriminate X
  | H1 : in_lits ?E ?t basic_types = true, H2 : eq_lit ?E ?t ?b = true |- _ =>
      let a := fresh in let Ha := fresh in let Hta := fresh in
      destruct (proj1 (in_lits_true E _ _) H1) as (a & Ha & Hta);
      pose proof (eq_lit_unique E _ _ _ Hta H2); subst;
      simpl in Ha; intuition discriminate
  end.

Lemma dispatched_not_object self i n t st st' :
  dispatched self i n t st st' ->
  eq_lit E t "object" = true \/
  (eq_lit E t "object" = false /\ schema_of st' = schema_of st).
Proof.
  intros H. inversion H; subst; auto; right; split; auto;
    destruct (eq_lit E t "object") eqn:Ho; reflexivity || clash.
Qed.

Lemma dispatched_object self i n t st st' :
  dispatched self i n t st st' ->
  eq_lit E t "object" = true ->
  exists properties schema1 r,
    py_getitem E n (lit E "properties") = Ok properties /\
    py_setitem E (schema_of st) (lit E "properties") properties = Ok schema1 /\
    self schema1 = Ok r /\
    schema_of st' = schema_of r.
Proof.
  intros H Ht.
  inversion H; subst;
    try solve [unfold schema_of; cbn [snd];
               do 3 eexists; repeat split; try eassumption; reflexivity];
    clash.
Qed.

(** A loop over quiet properties leaves the object as it is. *)
Lemma quiet_loop self items : forall st st',
  quiet (schema_of st) items ->
  loop self items st = Ok st' ->
  schema_of st' = schema_of st.
Proof.
  induction items as [|[i j] items IH]; intros st st' Hq H.
  - simpl in H. now injection H as <-.
  - simpl in H. apply bind_ok in H as (st1 & Hbody & H).
    destruct st as [[defs found] schema].
    apply loop_body_dispatched in Hbody as (n & t & Hn & Ht & Hd).
    assert (Hobj : eq_lit E t "object" = false)
      by (eapply Hq; eauto; now left).
    destruct (dispatched_not_object _ _ _ _ _ _ Hd) as [Ho|[_ Hs]]; [congruence|].
    rewrite <- Hs. apply IH; auto.
    rewrite Hs. intros i' j' n' t' Hin Hn' Ht'.
    apply (Hq i' j' n' t'); auto. now right.
Qed.

(** A loop ends on a settled object, or never left the one it started on. *)
Lemma loop_settles self items :
  (forall s r, self s = Ok r -> settled (schema_of r)) ->
  forall st st',
    loop self items st = Ok st' ->
    settled (schema_of st') \/
    (schema_of st' = schema_of st /\ quiet (schema_of st) items).
Proof.
  intros Hself. induction items as [|[i j] items IH]; intros st st' H.
  - simpl in H. injection H as <-. right. split; auto.
    intros ? ? ? ? [].
  - simpl in H. apply bind_ok in H as (st1 & Hbody & H).
    destruct st as [[defs found] schema].
    apply loop_body_dispatched in Hbody as (n & t & Hn & Ht & Hd).
    destruct (IH _ _ H) as [Hset|[Heq Hq]]; [now left|].
    destruct (dispatched_not_object _ _ _ _ _ _ Hd) as [Ho|[Ho Hs]].
    + left. rewrite Heq.
      destruct (dispatched_object _ _ _ _ _ _ Hd Ho) as (p & s1 & r & _ & _ & Hr & ->).
      eapply Hself; eauto.
    + right. rewrite Heq, Hs. split; auto.
      rewrite Hs in Hq. simpl in *.
      intros i' j' n' t' [[= <- <-]|Hin] Hn' Ht'.
      * congruence.
      * eapply Hq; eauto.
Qed.

Lemma extract_settles depth : forall schema st,
  extract_schema_defaults depth schema = Ok st -> settled (schema_of st).
Proof.
  induction depth as [|depth IH]; intros schema st H; [discriminate|].
  simpl in H.
  apply bind_ok in H as (properties & Hp & H).
  apply bind_ok in H as (items & Hi & H).
  destruct properties; simpl in Hi; try discriminate. injection Hi as ->.
  destruct (loop_settles _ _ IH _ _ H) as [Hs|[Heq Hq]]; auto.
  simpl in Heq, Hq. rewrite Heq. exists items. auto.
Qed.

(** C9: the call assigns to its argument. When the loop reaches a property
    whose resolved node has type ["object"], it stores the node's own
    properties under [properties] in the object bound to [schema], makes
    the nested call on that same object, and goes on to the later
    properties with the object as the nested call left it, so that their
    local pointers are walked from there. A call that returns after such a
    descent leaves the object different from what it was given. *)
Theorem input_schema_is_mutated depth schema before i j after st n t
    defs found schema' :
  py_get E schema (lit E "properties") = Ok (PDict (before ++ (i, j) :: after)) ->
  extract_schema_defaults (S depth) schema = Ok (defs, found, schema') ->
  reaches depth schema before st ->
  resolve (schema_of st) j = Ok n ->
  py_get E n (lit E "type") = Ok t ->
  eq_lit E t "object" = true ->
  (exists properties schema1 r st1,
      py_getitem E n (lit E "properties") = Ok properties /\
      py_setitem E (schema_of st) (lit E "properties") properties = Ok schema1 /\
      py_get E schema1 (lit E "properties") = Ok properties /\
      extract_schema_defaults depth schema1 = Ok r /\
      reaches depth schema (before ++ [(i, j)])%list st1 /\
      schema_of st1 = schema_of r)
  /\ schema' <> schema.
Proof.
  intros Hp H Hreach Hn Ht Hobj.
  edestruct extract_split as (st1 & Hb & Hl); [exact Hp|exact H|exact Hreach|].
  split.
  - destruct st as [[defs0 found0] schema0].
    pose proof Hb as Hb'.
    apply loop_body_dispatched in Hb' as (n' & t' & Hn' & Ht' & Hd).
    simpl in Hn. rewrite Hn in Hn'. injection Hn' as <-.
    rewrite Ht in Ht'. injection Ht' as <-.
    destruct (dispatched_object _ _ _ _ _ _ Hd Hobj) as (p & s1 & r & Hg & Hs & Hr & Heq).
    exists p, s1, r, st1. repeat split; auto.
    + simpl in Hs. destruct schema0; simpl in Hs; try discriminate.
      injection Hs as <-. simpl. now rewrite lookup_dict_set_same.
    + unfold reaches in *. rewrite loop_app, Hreach. simpl. now rewrite Hb.
  - intros ->.
    apply extract_settles in H as (items & Hi & Hq). simpl in Hi, Hq.
    rewrite Hp in Hi. injection Hi as <-.
    assert (Hst : schema_of st = schema).
    { unfold reaches in Hreach.
      apply (quiet_loop (extract_schema_defaults depth) before
               ([], false, schema) st); [|exact Hreach]. simpl.
      intros i' j' n' t' Hin Hn' Ht'.
      apply (Hq i' j' n' t'); auto. apply in_or_app. now left. }
    rewrite Hst in Hn.
    assert (Hno : eq_lit E t "object" = false).
    { eapply Hq; eauto. apply in_or_app. right. now left. }
    congruence.
Qed.

(** ** Schemas without references

    Without references a node resolves to itself, and which properties the
    document lists can be read off the schema. *)

Lemma ref_free_dict (d : pydict) :
  ref_free (PDict d) =
  negb (has_key E (lit E "$ref") d) && forallb (fun kv => ref_free (snd kv)) d.
Proof.
  simpl. f_equal. induction d as [|[k v] d IH]; simpl; congruence.
Qed.

Lemma ref_free_lookup (d : pydict) (k : pystr) (v : pyval) :
  ref_free (PDict d) = true -> lookup E k d = Some v -> ref_free v = true.
Proof.
  rewrite ref_free_dict, andb_true_iff. intros [_ Hall] Hk.
  apply lookup_in in Hk as (k' & Hin & _).
  rewrite forallb_forall in Hall. apply (Hall _ Hin).
Qed.

Lemma ref_free_member (d : pydict) (k : pystr) (v : pyval) :
  ref_free (PDict d) = true -> In (k, v) d -> ref_free v = true.
Proof.
  rewrite ref_free_dict, andb_true_iff. intros [_ Hall] Hin.
  rewrite forallb_forall in Hall. apply (Hall _ Hin).
Qed.

Lemma ref_free_setitem (schema v schema' : pyval) :
  ref_free schema = true -> ref_free v = true ->
  py_setitem E schema (lit E "properties") v = Ok schema' ->
  ref_free schema' = true.
Proof.
  destruct schema; simpl py_setitem; try discriminate.
  intros Hs Hv [= <-]. rewrite ref_free_dict in *.
  rewrite !andb_true_iff in *. destruct Hs as [Hd Hall]. split.
  - rewrite has_key_dict_set, lit_distinct by discriminate.
    now rewrite orb_false_r.
  - apply forallb_dict_set; auto.
Qed.

Lemma resolve_ref_free (schema j n : pyval) :
  ref_free j = true -> resolve schema j = Ok n -> n = j.
Proof.
  intros Hj H. unfold resolve in H.
  destruct j; simpl in H; try discriminate.
  rewrite ref_free_dict, andb_true_iff, negb_true_iff in Hj.
  rewrite has_key_keys in H. destruct Hj as [Hk _]. rewrite Hk in H.
  now injection H as <-.
Qed.

Lemma resolve_dict (schema : pyval) (d : pydict) :
  ref_free (PDict d) = true -> resolve schema (PDict d) = Ok (PDict d).
Proof.
  intros Hj. unfold resolve. simpl.
  rewrite ref_free_dict, andb_true_iff, negb_true_iff in Hj.
  rewrite has_key_keys. now destruct Hj as [-> _].
Qed.

Lemma loop_ref_free self items :
  (forall s r, ref_free s = true -> self s = Ok r ->
               ref_free (schema_of r) = true) ->
  forallb (fun kv => ref_free (snd kv)) items = true ->
  forall st st',
    ref_free (schema_of st) = true ->
    loop self items st = Ok st' ->
    ref_free (schema_of st') = true.
Proof.
  intros Hself. induction items as [|[i j] items IH]; intros Hall st st' Hs H.
  - simpl in H. now injection H as <-.
  - simpl in Hall. apply andb_true_iff in Hall as [Hj Hall].
    simpl in H. apply bind_ok in H as (st1 & Hbody & H).
    destruct st as [[defs found] schema].
    apply loop_body_dispatched in Hbody as (n & t & Hn & Ht & Hd).
    apply (IH Hall st1 st'); auto.
    apply resolve_ref_free in Hn; auto. subst n.
    destruct (dispatched_not_object _ _ _ _ _ _ Hd) as [Ho|[_ ->]]; auto.
    destruct (dispatched_object _ _ _ _ _ _ Hd Ho)
      as (p & s1 & r & Hp & Hset & Hr & ->).
    apply (Hself s1); auto.
    eapply ref_free_setitem; [exact Hs| |exact Hset].
    destruct j; simpl in Hp; try discriminate.
    destruct (lookup E (lit E "properties") d) eqn:Hl; [|discriminate].
    injection Hp as <-. eapply ref_free_lookup; eauto.
Qed.

Lemma properties_ref_free (schema : pyval) (items : pydict) :
  ref_free schema = true ->
  py_get E schema (lit E "properties") = Ok (PDict items) ->
  forallb (fun kv => ref_free (snd kv)) items = true.
Proof.
  destruct schema; simpl py_get; try discriminate. intros Hs.
  destruct (lookup E (lit E "properties") d) eqn:Hl; [|discriminate].
  intros [= ->]. apply (ref_free_lookup _ _ _ Hs) in Hl.
  rewrite ref_free_dict in Hl. now apply andb_true_iff in Hl.
Qed.

Lemma extract_ref_free depth : forall schema st,
  ref_free schema = true ->
  extract_schema_defaults depth schema = Ok st ->
  ref_free (schema_of st) = true.
Proof.
  induction depth as [|depth IH]; intros schema st Hs H; [discriminate|].
  rewrite extract_unfold in H.
  apply bind_ok in H as (properties & Hp & H).
  apply bind_ok in H as (items & Hi & H).
  destruct properties; simpl in Hi; try discriminate. injection Hi as ->.
  apply (loop_ref_free _ _ IH (properties_ref_free _ _ Hs Hp)
           ([], false, schema) st Hs H).
Qed.

Lemma type_of_get (d : pydict) :
  py_get E (PDict d) (lit E "type") = Ok (type_of E d).
Proof. reflexivity. Qed.

(** X18: the listing rule of a schema without references: a name is listed
    exactly when a property of that name contributes. *)
Lemma listing_without_references depth :
  forall schema items defs found schema' k,
    ref_free schema = true ->
    py_get E schema (lit E "properties") = Ok (PDict items) ->
    extract_schema_defaults depth schema = Ok (defs, found, schema') ->
    (has_key E k defs = true <->
     exists i j, In (i, j) items /\ str_eqb E i k = true /\ contributes j).
Proof.
  induction depth as [|depth IH];
    intros schema items defs found schema' k Hs Hp H; [discriminate|].
  pose proof (properties_ref_free _ _ Hs Hp) as Hitems.
  rewrite (extract_listing _ _ _ _ _ _ k Hp H). split.
  - intros (before & i & j & after & st & n & -> & Hik & Hreach & Hn & Hl).
    exists i, j. split; [apply in_or_app; right; now left|]. split; auto.
    assert (Hj : ref_free j = true).
    { rewrite forallb_forall in Hitems.
      apply (Hitems (i, j)). apply in_or_app. right. now left. }
    apply resolve_ref_free in Hn; auto. subst n.
    assert (Hst : ref_free (schema_of st) = true).
    { unfold reaches in Hreach.
      apply (loop_ref_free _ _ (extract_ref_free depth)) in Hreach; auto.
      rewrite forallb_app in Hitems. now apply andb_true_iff in Hitems. }
    destruct Hl as (t & Ht & Hcase).
    destruct j as [| | | | | |d]; simpl in Ht; try discriminate.
    injection Ht as <-. fold (type_of E d) in Hcase.
    destruct Hcase as [Hnull|[(Hbasic & default & Hd & Hnn)
                             |(Hobj & p & s1 & nested & f & s2 & Hg & Hset & Hx & Hne)]].
    + now apply contributes_null.
    + simpl in Hd. destruct (lookup E (lit E "default") d) eqn:Hl;
        injection Hd as <-; [|congruence].
      eapply contributes_basic; eauto.
    + simpl in Hg. destruct (lookup E (lit E "properties") d) as [p'|] eqn:Hl;
        [|discriminate]. injection Hg as <-. rename p' into p.
      pose proof (ref_free_lookup _ _ _ Hj Hl) as Hp0.
      pose proof (ref_free_setitem _ _ _ Hst Hp0 Hset) as Hs1.
      assert (Hp1 : py_get E s1 (lit E "properties") = Ok p).
      { destruct (schema_of st); simpl in Hset; try discriminate.
        injection Hset as <-. simpl. now rewrite lookup_dict_set_same. }
      assert (Hps : exists ps, p = PDict ps).
      { destruct depth; [discriminate|]. rewrite extract_unfold in Hx.
        rewrite Hp1 in Hx. cbn [bind] in Hx.
        destruct p; simpl in Hx; try discriminate. eauto. }
      destruct Hps as [ps ->].
      destruct nested as [|[k' v'] nested]; [congruence|].
      destruct (proj1 (IH s1 ps _ _ _ k' Hs1 Hp1 Hx)) as (name & child & Hin & _ & Hc).
      { simpl. now rewrite str_eqb_refl. }
      eapply contributes_object; eauto.
  - intros (i & j & Hin & Hik & Hc).
    destruct (in_split _ _ Hin) as (before & after & ->).
    pose proof H as H'. rewrite extract_unfold, Hp in H'. simpl in H'.
    rewrite loop_app in H'. apply bind_ok in H' as (st & Hreach & H').
    simpl in H'. apply bind_ok in H' as (st1 & Hbody & _).
    assert (Hj : ref_free j = true).
    { rewrite forallb_forall in Hitems.
      apply (Hitems (i, j)). apply in_or_app. right. now left. }
    assert (Hst : ref_free (schema_of st) = true).
    { apply (loop_ref_free _ _ (extract_ref_free depth)) in Hreach; auto.
      rewrite forallb_app in Hitems. now apply andb_true_iff in Hitems. }
    exists before, i, j, after, st, j. repeat split; auto.
    { destruct Hc; now apply resolve_dict. }
    destruct st as [[defs0 found0] schema0].
    apply loop_body_dispatched in Hbody as (n & t & Hn & Ht & Hd).
    apply resolve_ref_free in Hn; auto. subst n.
    destruct Hc as [d Hnull|d default Hbasic Hd0 Hnn|d ps name child Hobj Hl Hinc Hc];
      rewrite type_of_get in Ht; injection Ht as <-;
      exists (type_of E d); (split; [reflexivity|]).
    + now left.
    + right; left. split; auto. exists default. split; auto.
      simpl. now rewrite Hd0.
    + right; right. split; auto.
      destruct (dispatched_object _ _ _ _ _ _ Hd Hobj)
        as (p & s1 & [[nested f] s2] & Hg & Hset & Hx & _).
      simpl in Hg. rewrite Hl in Hg. injection Hg as <-.
      exists (PDict ps), s1, nested, f, s2. repeat split; auto.
      { simpl. now rewrite Hl. }
      pose proof (ref_free_lookup _ _ _ Hj Hl) as Hp0.
      pose proof (ref_free_setitem _ _ _ Hst Hp0 Hset) as Hs1.
      assert (Hp1 : py_get E s1 (lit E "properties") = Ok (PDict ps)).
      { simpl in Hset. destruct schema0; simpl in Hset; try discriminate.
        injection Hset as <-. simpl. now rewrite lookup_dict_set_same. }
      assert (Hk : has_key E name nested = true).
      { apply (IH s1 ps _ _ _ name Hs1 Hp1 Hx).
        exists name, child. repeat split; auto. apply str_eqb_refl. }
      intros ->. discriminate Hk.
Qed.

(** ** More on the entries of the document *)

Lemma extract_raises depth schema before i j after st e :
  py_get E schema (lit E "properties") = Ok (PDict (before ++ (i, j) :: after)) ->
  reaches depth schema before st ->
  loop_body (extract_schema_defaults depth) i j st = Err e ->
  extract_schema_defaults (S depth) schema = Err e.
Proof.
  intros Hp Hreach Hb. rewrite extract_unfold, Hp. simpl.
  rewrite loop_app. unfold reaches in Hreach. rewrite Hreach. simpl.
  now rewrite Hb.
Qed.

(** X8: a property whose resolved node has a type that is none of the seven
    the code knows, or has no type, is passed over: the document has no
    entry under its name. *)
Theorem unknown_type_is_skipped depth schema before i j after st n t
    defs found schema' :
  py_get E schema (lit E "properties") = Ok (PDict (before ++ (i, j) :: after)) ->
  has_key E i before = false ->
  has_key E i after = false ->
  extract_schema_defaults (S depth) schema = Ok (defs, found, schema') ->
  reaches depth schema before st ->
  resolve (schema_of st) j = Ok n ->
  py_get E n (lit E "type") = Ok t ->
  eq_lit E t "object" = false ->
  in_lits E t basic_types = false ->
  eq_lit E t "null" = false ->
  lookup E i defs = None.
Proof.
  intros Hp Hbefore Hafter H Hreach Hn Ht H1 H2 H3.
  edestruct extract_split as (st' & Hb & Hl); [exact Hp|exact H|exact Hreach|].
  pose proof (reaches_lookup _ _ _ _ _ Hreach Hbefore) as Hnone.
  destruct st as [[defs0 found0] schema0]. simpl in Hn, Hnone.
  rewrite (body_other _ _ _ _ _ _ _ _ Hn Ht H1 H2 H3) in Hb.
  injection Hb as <-. erewrite loop_lookup by eauto. exact Hnone.
Qed.

(** X9: the entry of a property whose resolved node is an object is the
    document of the nested call when that document is not empty; when it is
    empty the property has no entry (it is not mapped to an empty dict). *)
Theorem object_entry_is_nested_document depth schema before i j after st n t
    properties schema1 nested nested_found schema2 defs found schema' :
  py_get E schema (lit E "properties") = Ok (PDict (before ++ (i, j) :: after)) ->
  has_key E i before = false ->
  has_key E i after = false ->
  extract_schema_defaults (S depth) schema = Ok (defs, found, schema') ->
  reaches depth schema before st ->
  resolve (schema_of st) j = Ok n ->
  py_get E n (lit E "type") = Ok t ->
  eq_lit E t "object" = true ->
  py_getitem E n (lit E "properties") = Ok properties ->
  py_setitem E (schema_of st) (lit E "properties") properties = Ok schema1 ->
  extract_schema_defaults depth schema1 = Ok (nested, nested_found, schema2) ->
  (nested <> [] -> lookup E i defs = Some (PDict nested) /\ found = true)
  /\ (nested = [] -> lookup E i defs = None).
Proof.
  intros Hp Hbefore Hafter H Hreach Hn Ht Hobj Hg Hset Hx.
  edestruct extract_split as (st' & Hb & Hl); [exact Hp|exact H|exact Hreach|].
  pose proof (reaches_lookup _ _ _ _ _ Hreach Hbefore) as Hnone.
  destruct st as [[defs0 found0] schema0]. simpl in Hn, Hnone, Hset.
  rewrite (body_object _ _ _ _ _ _ _ _ Hn Ht Hobj) in Hb.
  rewrite Hg in Hb. cbn [bind] in Hb. rewrite Hset in Hb. cbn [bind] in Hb.
  rewrite Hx in Hb. cbn [bind] in Hb.
  pose proof (extract_found _ _ _ _ _ Hx) as Hf.
  split; intros Hne.
  - apply Hf in Hne. subst nested_found. injection Hb as <-. split.
    + erewrite loop_lookup by eauto. apply lookup_dict_set_same.
    + eapply loop_found_mono; eauto.
  - destruct nested_found.
    + destruct Hf as [Hf _]. now elim (Hf eq_refl).
    + injection Hb as <-. erewrite loop_lookup by eauto. exact Hnone.
Qed.

(** X10: a property whose resolved node is typed ["object"] and has no
    [properties] entry makes the call raise KeyError. *)
Theorem object_without_properties_raises depth schema before i j after st d :
  py_get E schema (lit E "properties") = Ok (PDict (before ++ (i, j) :: after)) ->
  reaches depth schema before st ->
  resolve (schema_of st) j = Ok (PDict d) ->
  eq_lit E (type_of E d) "object" = true ->
  lookup E (lit E "properties") d = None ->
  extract_schema_defaults (S depth) schema = Err KeyError.
Proof.
  intros Hp Hreach Hn Hobj Hnone.
  apply (extract_raises _ _ _ _ _ _ _ _ Hp Hreach).
  destruct st as [[defs0 found0] schema0]. simpl in Hn.
  rewrite (body_object _ _ _ _ _ _ _ _ Hn (type_of_get d) Hobj).
  simpl. now rewrite Hnone.
Qed.

(** X11: a property that is not a dict, whose [$ref] entry is not a string, or
    that resolves to a value that is not a dict, makes the call raise
    AttributeError. *)
Theorem malformed_property_raises depth schema before i j after st :
  py_get E schema (lit E "properties") = Ok (PDict (before ++ (i, j) :: after)) ->
  reaches depth schema before st ->
  (forall d, j <> PDict d)
  \/ (exists d ref,
        j = PDict d /\ lookup E (lit E "$ref") d = Some ref /\
        forall s, ref <> PStr s)
  \/ (exists n, resolve (schema_of st) j = Ok n /\ forall d, n <> PDict d) ->
  extract_schema_defaults (S depth) schema = Err AttributeError.
Proof.
  intros Hp Hreach Hcase.
  apply (extract_raises _ _ _ _ _ _ _ _ Hp Hreach).
  destruct st as [[defs0 found0] schema0]. unfold loop_body, schema_of in *.
  simpl snd in Hcase.
  destruct Hcase as [Hj|[(d & ref & -> & Hl & Href)|(n & Hn & Hnd)]].
  - unfold resolve. destruct j; try reflexivity. now elim (Hj d).
  - unfold resolve. cbn [py_keys bind]. rewrite has_key_keys, has_key_lookup, Hl.
    cbn [py_get bind]. rewrite Hl.
    destruct ref; try reflexivity. now elim (Href s).
  - rewrite Hn. cbn [bind]. destruct n; try reflexivity. now elim (Hnd d).
Qed.

(** X12: a failure to load the file of an external reference, or to re-encode
    what was loaded, is the failure of the call. *)
Theorem external_failure_propagates depth schema before i d after st ref e :
  py_get E schema (lit E "properties")
    = Ok (PDict (before ++ (i, PDict d) :: after)) ->
  reaches depth schema before st ->
  lookup E (lit E "$ref") d = Some ref ->
  startswith E ref "file:" = Ok true ->
  load_external ref = Err e ->
  extract_schema_defaults (S depth) schema = Err e.
Proof.
  intros Hp Hreach Hl Hs Hload.
  apply (extract_raises _ _ _ _ _ _ _ _ Hp Hreach).
  destruct st as [[defs0 found0] schema0]. unfold loop_body, resolve.
  cbn [py_keys bind]. rewrite has_key_keys, has_key_lookup, Hl.
  cbn [py_get bind]. rewrite Hl, Hs. cbn [bind]. now rewrite Hload.
Qed.

(** ** What a call leaves of its argument *)

(** [kept schema schema']: [schema'] has the keys of [schema], in their
    order, and the entries of [schema] other than [properties]. *)
Let kept (schema schema' : pyval) : Prop :=
  py_keys schema' = py_keys schema /\
  forall k, str_eqb E (lit E "properties") k = false ->
            py_get E schema' k = py_get E schema k.

Let has_properties (schema : pyval) : bool :=
  match schema with
  | PDict d => has_key E (lit E "properties") d
  | _ => false
  end.

Lemma kept_refl schema : kept schema schema.
Proof. split; auto. Qed.

Lemma kept_trans s1 s2 s3 : kept s1 s2 -> kept s2 s3 -> kept s1 s3.
Proof.
  intros [Hk1 Hg1] [Hk2 Hg2]. split; [congruence|].
  intros k Hk. rewrite Hg2, Hg1; auto.
Qed.

Lemma kept_has_properties s1 s2 :
  kept s1 s2 -> has_properties s1 = true -> has_properties s2 = true.
Proof.
  intros [Hk _]. destruct s1 as [| | | | | |d1]; try discriminate.
  destruct s2 as [| | | | | |d2]; try discriminate. simpl in *.
  injection Hk as Hk. now rewrite <- !has_key_keys, Hk.
Qed.

Lemma dict_set_keys (d : pydict) (k : pystr) (v : pyval) :
  has_key E k d = true -> map fst (dict_set E d k v) = map fst d.
Proof.
  induction d as [|[k0 v0] d IH]; simpl; [discriminate|].
  destruct (str_eqb E k0 k); simpl; [reflexivity|].
  intros H. f_equal. auto.
Qed.

Lemma setitem_kept (schema v schema' : pyval) :
  has_properties schema = true ->
  py_setitem E schema (lit E "properties") v = Ok schema' ->
  kept schema schema'.
Proof.
  destruct schema as [| | | | | |d]; simpl; try discriminate.
  intros Hk [= <-]. split; simpl.
  - now rewrite dict_set_keys.
  - intros k Hne. now rewrite lookup_dict_set_other.
Qed.

Lemma loop_kept self items :
  (forall s r, has_properties s = true -> self s = Ok r ->
               kept s (schema_of r)) ->
  forall st st',
    has_properties (schema_of st) = true ->
    loop self items st = Ok st' ->
    kept (schema_of st) (schema_of st').
Proof.
  intros Hself. induction items as [|[i j] items IH]; intros st st' Hh H.
  - simpl in H. injection H as <-. apply kept_refl.
  - simpl in H. apply bind_ok in H as (st1 & Hbody & H).
    destruct st as [[defs found] schema].
    apply loop_body_dispatched in Hbody as (n & t & Hn & Ht & Hd).
    assert (Hstep : kept schema (schema_of st1)).
    { destruct (dispatched_not_object _ _ _ _ _ _ Hd) as [Ho|[_ Hs]].
      - destruct (dispatched_object _ _ _ _ _ _ Hd Ho)
          as (p & s1 & r & Hg & Hset & Hr & ->).
        simpl in Hset, Hh.
        pose proof (setitem_kept _ _ _ Hh Hset) as Hk1.
        apply (kept_trans _ _ _ Hk1). apply Hself; auto.
        apply (kept_has_properties _ _ Hk1 Hh).
      - rewrite Hs. apply kept_refl. }
    apply (kept_trans _ _ _ Hstep). apply IH; auto.
    apply (kept_has_properties _ _ Hstep Hh).
Qed.

Lemma extract_kept depth : forall schema st,
  extract_schema_defaults depth schema = Ok st -> kept schema (schema_of st).
Proof.
  induction depth as [|depth IH]; intros schema st H; [discriminate|].
  rewrite extract_unfold in H.
  apply bind_ok in H as (properties & Hp & H).
  apply bind_ok in H as (items & Hi & H).
  destruct properties; simpl in Hi; try discriminate. injection Hi as ->.
  assert (Hh : has_properties schema = true).
  { destruct schema as [| | | | | |d]; simpl in Hp; try discriminate.
    simpl. rewrite has_key_lookup.
    destruct (lookup E (lit E "properties") d); [reflexivity|discriminate]. }
  apply (loop_kept (extract_schema_defaults depth) items
           (fun s r _ Hr => IH s r Hr) ([], false, schema) st Hh H).
Qed.

(** X13: a call that returns leaves the object bound to [schema] with the keys
    it had, in their order, and with every entry it had, except the one
    under [properties]. *)
Theorem only_properties_is_assigned depth schema defs found schema' :
  extract_schema_defaults depth schema = Ok (defs, found, schema') ->
  py_keys schema' = py_keys schema
  /\ forall k, str_eqb E (lit E "properties") k = false ->
               py_get E schema' k = py_get E schema k.
Proof. intros H. apply (extract_kept _ _ _ H). Qed.

(** X14: a call that returns leaves the object bound to [schema] as it was
    exactly when none of its properties resolves, against the schema as
    given, to a node of type ["object"]. *)
Theorem unchanged_iff_no_object depth schema items defs found schema' :
  py_get E schema (lit E "properties") = Ok (PDict items) ->
  extract_schema_defaults depth schema = Ok (defs, found, schema') ->
  (schema' = schema <-> quiet schema items).
Proof.
  intros Hp H. split.
  - intros ->. apply extract_settles in H as (items' & Hi & Hq).
    simpl in Hi, Hq. rewrite Hp in Hi. now injection Hi as <-.
  - intros Hq. destruct depth as [|depth]; [discriminate|].
    rewrite extract_unfold, Hp in H. simpl in H.
    apply (quiet_loop (extract_schema_defaults depth) items
             ([], false, schema) (defs, found, schema') Hq H).
Qed.

(** X19: a local pointer whose walk does not start under [properties] resolves
    after a call that returned as it did before: the assignments of the
    call do not reach what it names. *)
Theorem pointers_outside_properties_are_stable depth schema defs found schema'
    key defPath :
  extract_schema_defaults depth schema = Ok (defs, found, schema') ->
  str_eqb E (lit E "properties") key = false ->
  reduce_get E (key :: defPath) schema' = reduce_get E (key :: defPath) schema.
Proof.
  intros H Hk. destruct (extract_kept _ _ _ H) as [Hkeys Hget].
  simpl in Hkeys, Hget. simpl. rewrite (Hget key Hk).
  assert (Ht : truthy schema' = truthy schema).
  { destruct depth; [discriminate|]. rewrite extract_unfold in H.
    apply bind_ok in H as (properties & Hp & _).
    destruct schema as [| | | | | |d]; try discriminate Hp.
    destruct schema' as [| | | | | |d']; try discriminate Hkeys.
    simpl in Hkeys. injection Hkeys as Hkeys. simpl.
    destruct d, d'; try discriminate; reflexivity. }
  now rewrite Ht.
Qed.

(** ** Order of the keys of the document *)

Lemma dict_set_keys_cases (d : pydict) (k : pystr) (v : pyval) :
  map fst (dict_set E d k v) = map fst d
  \/ map fst (dict_set E d k v) = (map fst d ++ [k])%list.
Proof.
  induction d as [|[k0 v0] d IH]; simpl; [now right|].
  destruct (str_eqb E k0 k); simpl; [now left|].
  destruct IH as [->| ->]; auto.
Qed.

Lemma dispatched_keys self i n t defs found schema defs' found' schema' :
  dispatched self i n t (defs, found, schema) (defs', found', schema') ->
  map fst defs' = map fst defs \/ map fst defs' = (map fst defs ++ [i])%list.
Proof.
  intros H. inversion H; subst; auto using dict_set_keys_cases.
Qed.

Lemma loop_keys_order self items : forall defs found schema defs' found' schema',
  loop self items (defs, found, schema) = Ok (defs', found', schema') ->
  exists added,
    map fst defs' = (map fst defs ++ added)%list /\
    subseq added (map fst items).
Proof.
  induction items as [|[i j] items IH];
    intros defs found schema defs' found' schema' H.
  - simpl in H. injection H as <- <- <-. exists []. split.
    + now rewrite app_nil_r.
    + constructor.
  - simpl in H. apply bind_ok in H as ([[defs1 found1] schema1] & Hbody & H).
    apply loop_body_dispatched in Hbody as (n & t & _ & _ & Hd).
    destruct (IH _ _ _ _ _ _ H) as (added & Hk & Hsub).
    destruct (dispatched_keys _ _ _ _ _ _ _ _ _ _ Hd) as [Heq|Heq];
      rewrite Heq in Hk.
    + exists added. split; auto. now apply subseq_skip.
    + exists (i :: added). split.
      * now rewrite Hk, <- app_assoc.
      * now apply subseq_keep.
Qed.

(** X15: on Python 3, where a dict iterates in the order of insertion, the
    keys of the returned document are names of properties, in the order in
    which the schema lists them. *)
Theorem document_keys_in_schema_order depth schema items defs found schema' :
  py3 E = true ->
  py_get E schema (lit E "properties") = Ok (PDict items) ->
  extract_schema_defaults depth schema = Ok (defs, found, schema') ->
  subseq (map fst defs) (map fst items).
Proof.
  intros _ Hp H. destruct depth as [|depth]; [discriminate|].
  rewrite extract_unfold, Hp in H. simpl in H.
  destruct (loop_keys_order _ _ _ _ _ _ _ _ H) as (added & Hk & Hsub).
  simpl in Hk. now rewrite Hk.
Qed.

(** ** Local pointers that lead somewhere *)

Lemma reduce_get_at_path (defPath : list pystr) : forall d n,
  at_path defPath d = Some n -> reduce_get E defPath d = Ok n.
Proof.
  induction defPath as [|key defPath IH]; intros d n; simpl.
  - now intros [= ->].
  - destruct d as [| | | | | |m]; try discriminate.
    destruct (lookup E key m) as [v|] eqn:Hl; [|discriminate].
    intros H. destruct m as [|kv m]; [discriminate|].
    cbn [truthy py_get bind]. rewrite Hl. now apply IH.
Qed.

Lemma resolve_text_pointer (schema : pyval) (d : pydict) (r : string) :
  lookup E (lit E "$ref") d = Some (PStr (Text r)) ->
  String.prefix "file:" r = false ->
  resolve schema (PDict d)
  = reduce_get E (tl (map Text (split "/" r))) schema.
Proof.
  intros Hl Hp. apply resolve_local with (ref := PStr (Text r)).
  - rewrite has_key_lookup. now rewrite Hl.
  - simpl. now rewrite Hl.
  - simpl. now rewrite Hp.
  - reflexivity.
Qed.

(** X16: a local pointer whose segments, after the first, name a chain of keys
    that the schema has resolves to the value at the end of the chain. *)
Theorem local_pointer_resolves schema d r n :
  lookup E (lit E "$ref") d = Some (PStr (Text r)) ->
  String.prefix "file:" r = false ->
  at_path (tl (map Text (split "/" r))) schema = Some n ->
  resolve schema (PDict d) = Ok n.
Proof.
  intros Hl Hp Hn. rewrite (resolve_text_pointer _ _ _ Hl Hp).
  now apply reduce_get_at_path.
Qed.

Lemma split_no_slash (p : string) :
  no_slash p = true -> split "/" p = [p].
Proof.
  induction p as [|c p IH]; simpl; [reflexivity|].
  rewrite andb_true_iff, negb_true_iff. intros [Hc Hp].
  now rewrite Hc, (IH Hp).
Qed.

Lemma split_first_segment (p rest : string) :
  no_slash p = true ->
  split "/" (p ++ String "/" rest) = p :: split "/" rest.
Proof.
  induction p as [|c p IH]; simpl.
  - reflexivity.
  - rewrite andb_true_iff, negb_true_iff. intros [Hc Hp].
    now rewrite Hc, (IH Hp).
Qed.

(** X17: the walk of a local pointer starts after the first [/]: whatever
    stands before it, [#] or not, is dropped; and a reference without any
    [/] stands for the whole object bound to [schema]. *)
Theorem leading_segment_is_dropped schema d r :
  lookup E (lit E "$ref") d = Some (PStr (Text r)) ->
  String.prefix "file:" r = false ->
  (forall p rest,
      r = p ++ String "/" rest -> no_slash p = true ->
      resolve schema (PDict d)
      = reduce_get E (map Text (split "/" rest)) schema)
  /\ (no_slash r = true -> resolve schema (PDict d) = Ok schema).
Proof.
  intros Hl Hp. rewrite (resolve_text_pointer _ _ _ Hl Hp). split.
  - intros p rest -> Hns. now rewrite split_first_segment.
  - intros Hns. now rewrite split_no_slash.
Qed.

(** ** A reference and the node it names *)

Lemma dict_set_twice (d : pydict) (k : pystr) (a b : pyval) :
  dict_set E (dict_set E d k a) k b = dict_set E d k b.
Proof.
  induction d as [|[k0 v0] d IH]; simpl.
  - now rewrite str_eqb_refl.
  - destruct (str_eqb E k0 k) eqn:Hk; simpl; rewrite Hk;
      [reflexivity|now rewrite IH].
Qed.

Lemma dict_set_same (d : pydict) (k : pystr) (v : pyval) :
  lookup E k d = Some v -> dict_set E d k v = d.
Proof.
  induction d as [|[k0 v0] d IH]; simpl; [discriminate|].
  destruct (str_eqb E k0 k).
  - now intros [= ->].
  - intros H. now rewrite IH.
Qed.

(** [twins s1 s2]: the two objects differ at most under [properties]. *)
Let twins (s1 s2 : pyval) : Prop :=
  exists d P1 P2,
    s1 = PDict (dict_set E d (lit E "properties") P1) /\
    s2 = PDict (dict_set E d (lit E "properties") P2).

(** [alike r1 r2]: the two runs end the same way, with the same document
    and the objects bound to [schema] equal or twins. *)
Let alike (r1 r2 : result frame) : Prop :=
  match r1, r2 with
  | Ok (defs1, found1, s1), Ok (defs2, found2, s2) =>
      defs1 = defs2 /\ found1 = found2 /\ (s1 = s2 \/ twins s1 s2)
  | Err e1, Err e2 => e1 = e2
  | _, _ => False
  end.

Lemma alike_refl (r : result frame) : alike r r.
Proof. destruct r as [[[defs found] s]|e]; simpl; auto. Qed.

Lemma twins_get (s1 s2 : pyval) (key : pystr) :
  twins s1 s2 -> str_eqb E (lit E "properties") key = false ->
  py_get E s1 key = py_get E s2 key.
Proof.
  intros (d & P1 & P2 & -> & ->) Hk. simpl.
  now rewrite !lookup_dict_set_other.
Qed.

Lemma truthy_dict_set (d : pydict) (k : pystr) (v : pyval) :
  truthy (PDict (dict_set E d k v)) = true.
Proof.
  destruct d as [|[k0 v0] d]; simpl; [reflexivity|].
  destruct (str_eqb E k0 k); reflexivity.
Qed.

Lemma twins_setitem (s1 s2 v : pyval) :
  twins s1 s2 ->
  py_setitem E s1 (lit E "properties") v
  = py_setitem E s2 (lit E "properties") v.
Proof.
  intros (d & P1 & P2 & -> & ->). simpl. now rewrite !dict_set_twice.
Qed.

Lemma twins_reduce_get (s1 s2 : pyval) (key : pystr) (defPath : list pystr) :
  twins s1 s2 -> str_eqb E (lit E "properties") key = false ->
  reduce_get E (key :: defPath) s1 = reduce_get E (key :: defPath) s2.
Proof.
  intros Ht Hk. cbn [reduce_get]. rewrite (twins_get _ _ _ Ht Hk).
  destruct Ht as (d & P1 & P2 & -> & ->). now rewrite !truthy_dict_set.
Qed.

(** A property that does not look under [properties] resolves in the same
    way against twins. *)
Lemma resolve_twins (s1 s2 j : pyval) :
  twins s1 s2 -> outside_properties E j = true ->
  resolve s1 j = resolve s2 j.
Proof.
  intros Ht Ho. destruct j as [| | | | | |n]; try reflexivity.
  unfold resolve. cbn [py_keys bind]. rewrite has_key_keys, has_key_lookup.
  unfold outside_properties in Ho. cbn [py_get].
  destruct (lookup E (lit E "$ref") n) as [ref|]; [|reflexivity].
  cbn [bind].
  destruct (startswith E ref "file:") as [[|]|e] eqn:Hs; cbn [bind];
    try reflexivity.
  destruct ref as [| | | | s | |]; try discriminate Hs.
  destruct s as [t|t]; cbn [startswith] in Hs; cbn [py_split walked] in *.
  - cbn [bind]. destruct (tl (map Text (split "/" t))) as [|key defPath];
      [discriminate Ho|].
    apply twins_reduce_get; [exact Ht|]. now apply negb_true_iff.
  - destruct (py3 E); [discriminate Hs|]. cbn [bind].
    destruct (tl (map Bytes (split "/" t))) as [|key defPath];
      [discriminate Ho|].
    apply twins_reduce_get; [exact Ht|]. now apply negb_true_iff.
Qed.

Lemma body_twins self i j defs found s1 s2 :
  twins s1 s2 -> outside_properties E j = true ->
  alike (loop_body self i j (defs, found, s1))
    (loop_body self i j (defs, found, s2)).
Proof.
  intros Ht Ho. unfold loop_body. rewrite <- (resolve_twins _ _ _ Ht Ho).
  destruct (resolve s1 j) as [n|e]; cbn [bind]; [|reflexivity].
  destruct (py_get E n (lit E "type")) as [t|e]; cbn [bind]; [|reflexivity].
  destruct (eq_lit E t "object").
  - destruct (py_getitem E n (lit E "properties")) as [p|e]; cbn [bind];
      [|reflexivity].
    rewrite <- (twins_setitem _ _ p Ht).
    destruct (py_setitem E s1 (lit E "properties") p) as [s'|e]; cbn [bind];
      [|reflexivity].
    destruct (self s') as [[[nested extracted] s'']|e]; cbn [bind];
      [|reflexivity].
    destruct extracted; simpl; auto.
  - destruct (in_lits E t basic_types).
    + destruct (py_get E n (lit E "default")) as [default|e]; cbn [bind];
        [|reflexivity].
      destruct default; simpl; auto.
    + destruct (eq_lit E t "null"); simpl; auto.
Qed.

Lemma loop_alike self items :
  forallb (fun kv => outside_properties E (snd kv)) items = true ->
  forall defs found s1 s2,
    s1 = s2 \/ twins s1 s2 ->
    alike (loop self items (defs, found, s1))
      (loop self items (defs, found, s2)).
Proof.
  induction items as [|[i j] items IH]; intros Ho defs found s1 s2 Hs.
  - simpl. auto.
  - destruct Hs as [->|Ht]; [apply alike_refl|].
    simpl in Ho. apply andb_true_iff in Ho as [Hj Ho].
    pose proof (body_twins self i j defs found s1 s2 Ht Hj) as Hb.
    simpl.
    destruct (loop_body self i j (defs, found, s1)) as [[[d1 f1] s1']|e1],
             (loop_body self i j (defs, found, s2)) as [[[d2 f2] s2']|e2];
      simpl in Hb; try contradiction.
    + destruct Hb as (-> & -> & Hs'). cbn [bind]. now apply IH.
    + subst. reflexivity.
Qed.

Lemma has_properties_truthy (schema : pyval) :
  has_properties schema = true -> truthy schema = true.
Proof.
  destruct schema as [| | | | | |d]; try discriminate.
  destruct d; [discriminate|reflexivity].
Qed.

Lemma kept_reduce_get (s s' : pyval) (key : pystr) (defPath : list pystr) :
  kept s s' -> has_properties s = true ->
  str_eqb E (lit E "properties") key = false ->
  reduce_get E (key :: defPath) s' = reduce_get E (key :: defPath) s.
Proof.
  intros Hk Hh Hne. pose proof (kept_has_properties _ _ Hk Hh) as Hh'.
  destruct Hk as [_ Hg]. cbn [reduce_get]. rewrite (Hg key Hne).
  now rewrite !has_properties_truthy.
Qed.

(** C6: a property that is a local reference yields what the same schema
    yields with the node the reference names written in its place, when
    that node is an object without a reference of its own, the pointer does
    not start under [properties], and no property listed before it is a
    local reference that starts under [properties]. Both calls return the
    same pair or raise the same exception. *)
Theorem reference_as_inlined depth schema before name node after r key defPath
    body :
  lookup E (lit E "properties") schema
    = Some (PDict (before ++ (name, PDict node) :: after)) ->
  lookup E (lit E "$ref") node = Some (PStr (Text r)) ->
  String.prefix "file:" r = false ->
  tl (map Text (split "/" r)) = key :: defPath ->
  str_eqb E (lit E "properties") key = false ->
  at_path (key :: defPath) (PDict schema) = Some (PDict body) ->
  has_key E (lit E "$ref") body = false ->
  eq_lit E (type_of E body) "object" = true ->
  forallb (fun kv => outside_properties E (snd kv)) before = true ->
  returned (extract_schema_defaults depth (PDict schema))
  = returned
      (extract_schema_defaults depth
         (PDict (dict_set E schema (lit E "properties")
                   (PDict (before ++ (name, PDict body) :: after))))).
Proof.
  intros Hp Hr Hf Hw Hk Hb Hnr Ht Ho.
  destruct depth as [|depth]; [reflexivity|].
  rewrite !extract_unfold. cbn [py_get].
  rewrite Hp, lookup_dict_set_same. cbn [bind iteritems].
  rewrite !loop_app.
  set (s1 := PDict schema).
  set (s2 := PDict (dict_set E schema _ _)).
  assert (Htw : twins s1 s2).
  { exists schema, (PDict (before ++ (name, PDict node) :: after)),
      (PDict (before ++ (name, PDict body) :: after)).
    split; [|reflexivity]. unfold s1. now rewrite dict_set_same. }
  assert (Hh : has_properties s1 = true).
  { simpl. now rewrite has_key_lookup, Hp. }
  match goal with
  | |- returned (bind ?run1 _) = returned (bind ?run2 _) =>
      assert (Hal : alike run1 run2)
        by (apply (loop_alike _ _ Ho); now right);
      destruct run1 as [[[d1 f1] s1']|e1] eqn:H1;
      destruct run2 as [[[d2 f2] s2']|e2]
  end; simpl in Hal; try contradiction; [|now subst].
  destruct Hal as (-> & -> & Hs). cbn [bind].
  assert (Hn1 : resolve s1' (PDict node) = Ok (PDict body)).
  { rewrite (resolve_text_pointer _ _ _ Hr Hf), Hw.
    pose proof (loop_kept (extract_schema_defaults depth) before
                  (fun s st _ Hst => extract_kept depth s st Hst)
                  ([], false, s1) (d2, f2, s1') Hh H1) as Hkept.
    rewrite (kept_reduce_get _ _ _ _ Hkept Hh Hk).
    now apply reduce_get_at_path. }
  assert (Hn2 : resolve s2' (PDict body) = Ok (PDict body)).
  { unfold resolve. cbn [py_keys bind]. now rewrite has_key_keys, Hnr. }
  simpl.
  rewrite (body_object (extract_schema_defaults depth) name (PDict node)
             (PDict body) (type_of E body) d2 f2 s1' Hn1 (type_of_get body)
             Ht).
  rewrite (body_object (extract_schema_defaults depth) name (PDict body)
             (PDict body) (type_of E body) d2 f2 s2' Hn2 (type_of_get body)
             Ht).
  destruct Hs as [->|Hs]; [reflexivity|].
  destruct (py_getitem E (PDict body) (lit E "properties")) as [p|e];
    cbn [bind]; [|reflexivity].
  now rewrite (twins_setitem _ _ p Hs).
Qed.
End Extraction.

(** * The scenarios of the specification *)

(** The schema whose only property refers to [#/definitions/Point], and the
    one with the body of [Point] in its place: both yield [{name: {"x": 0}}],
    whatever the environment. *)
Example point_scenario E newEncoding externalRefLoc depth name :
  returned
    (extract_schema_defaults E newEncoding externalRefLoc (S (S depth))
       (point_by_reference name))
  = returned
      (extract_schema_defaults E newEncoding externalRefLoc (S (S depth))
         (point_inlined name))
  /\ returned
       (extract_schema_defaults E newEncoding externalRefLoc (S (S depth))
          (point_inlined name))
     = Ok ([(name, obj [("x", PInt 0)])], true).
Proof.
  destruct E as [[] codec sep norm join cwd load]; split; reflexivity.
Qed.

(** C7: for an object the document holds the defaults of its children; the
    default the object itself carries, [{"b": 0}] or any other, is not
    read. *)
Theorem child_default_overrides E newEncoding externalRefLoc depth :
  returned
    (extract_schema_defaults E newEncoding externalRefLoc (S (S depth))
       (nested_defaults (obj [("b", PInt 0)])))
  = Ok ([(Text "a", obj [("b", PInt 1)])], true)
  /\ forall parent_default,
       returned
         (extract_schema_defaults E newEncoding externalRefLoc (S (S depth))
            (nested_defaults parent_default))
       = Ok ([(Text "a", obj [("b", PInt 1)])], true).
Proof.
  destruct E as [[] codec sep norm join cwd load]; split; reflexivity.
Qed.

(** ** The external reference *)

(** On Python 3 [change_encoding] turns every string of the loaded
    document, the keys among them, into [bytes]. *)
Lemma reencoded_python3 E encoding b1 b2 b3 :
  py3 E = true ->
  codec_encode E encoding "type" = Ok b1 ->
  codec_encode E encoding "integer" = Ok b2 ->
  codec_encode E encoding "default" = Ok b3 ->
  change_encoding E ext_json encoding
  = Ok (PDict (dict E [(Bytes b1, PStr (Bytes b2)); (Bytes b3, PInt 7)])).
Proof.
  intros Hv H1 H2 H3. simpl.
  rewrite H1. simpl. rewrite H2. simpl. now rewrite H3.
Qed.

(** C5 on Python 3: the loaded document is re-encoded before its type is
    read, and the type is then not found under the text key ["type"]: the
    call returns the empty document and an unset flag, not [({"p": 7},
    True)]. *)
Theorem external_reference_python3 E encoding externalRefLoc depth :
  py3 E = true ->
  str_truthy encoding = true ->
  load_json E (reference_path E externalRefLoc "file:ext.json") = Ok ext_json ->
  (forall s, In s ["type"; "integer"; "default"] ->
             exists b, codec_encode E encoding s = Ok b) ->
  (exists reencoded,
      change_encoding E ext_json encoding = Ok reencoded /\
      resolve E (Some encoding) externalRefLoc external_schema
        (obj [("$ref", str "file:ext.json")]) = Ok reencoded /\
      py_get E reencoded (lit E "type") = Ok PNone)
  /\ extract_schema_defaults E (Some encoding) externalRefLoc (S depth)
       external_schema
     = Ok ([], false, external_schema).
Proof.
  intros Hv Henc Hload Hcodec.
  destruct (Hcodec "type") as [b1 H1]; [simpl; auto|].
  destruct (Hcodec "integer") as [b2 H2]; [simpl; auto|].
  destruct (Hcodec "default") as [b3 H3]; [simpl; auto|].
  pose proof (reencoded_python3 E encoding b1 b2 b3 Hv H1 H2 H3) as Hre.
  set (reencoded :=
         PDict (dict E [(Bytes b1, PStr (Bytes b2)); (Bytes b3, PInt 7)])) in *.
  assert (Hres : resolve E (Some encoding) externalRefLoc external_schema
                   (obj [("$ref", str "file:ext.json")])
                 = Ok reencoded).
  { unfold resolve, load_external. simpl. unfold lit. rewrite Hv. simpl.
    rewrite Hload. simpl. rewrite Henc. exact Hre. }
  assert (Hty : py_get E reencoded (lit E "type") = Ok PNone).
  { unfold reencoded, dict, lit. rewrite Hv. simpl.
    destruct (String.eqb b1 b3); simpl; now rewrite Hv. }
  split.
  - eexists. repeat split; eauto.
  - cbn [extract_schema_defaults]. unfold lit at 1. rewrite Hv. simpl.
    unfold loop_body.
    change (PDict [(Text "$ref", PStr (Text "file:ext.json"))])
      with (obj [("$ref", str "file:ext.json")]).
    fold external_schema. rewrite Hres. cbn [bind]. rewrite Hty. reflexivity.
Qed.

#[local] Opaque reference_path.

(** On Python 2, with a codec that leaves ASCII text as it is, the
    re-encoded keys still equal the literals of the source, and the call
    returns [({"p": 7}, True)]. *)
Lemma external_reference_python2 E encoding externalRefLoc depth :
  py3 E = false ->
  str_truthy encoding = true ->
  load_json E (reference_path E externalRefLoc "file:ext.json") = Ok ext_json ->
  (forall s, In s ["type"; "integer"; "default"] ->
             codec_encode E encoding s = Ok s) ->
  extract_schema_defaults E (Some encoding) externalRefLoc (S depth)
    external_schema
  = Ok ([(Text "p", PInt 7)], true, external_schema).
Proof.
  intros Hv Henc Hload Hcodec.
  assert (H1 : codec_encode E encoding "type" = Ok "type")
    by (apply Hcodec; simpl; auto).
  assert (H2 : codec_encode E encoding "integer" = Ok "integer")
    by (apply Hcodec; simpl; auto).
  assert (H3 : codec_encode E encoding "default" = Ok "default")
    by (apply Hcodec; simpl; auto).
  clear Hcodec.
  destruct E as [v codec sep norm join cwd load]; simpl in Hv, H1, H2, H3, Hload.
  subst v. simpl. unfold loop_body, resolve, load_external. simpl.
  rewrite Hload. simpl. rewrite Henc. simpl.
  rewrite H1. simpl. rewrite H2. simpl. rewrite H3. reflexivity.
Qed.

#[local] Transparent reference_path.

(** * [change_encoding] *)

(** Induction on a value, with the elements of a list and the values of a
    dict as smaller values. *)
Section PyvalInduction.

Variable P : pyval -> Prop.
Hypothesis HNone : P PNone.
Hypothesis HBool : forall b, P (PBool b).
Hypothesis HInt : forall z, P (PInt z).
Hypothesis HFloat : forall m e, P (PFloat m e).
Hypothesis HStr : forall s, P (PStr s).
Hypothesis HList : forall l, Forall P l -> P (PList l).
Hypothesis HDict : forall d, Forall (fun kv => P (snd kv)) d -> P (PDict d).

Fixpoint pyval_induction (v : pyval) : P v :=
  match v with
  | PNone => HNone
  | PBool b => HBool b
  | PInt z => HInt z
  | PFloat m e => HFloat m e
  | PStr s => HStr s
  | PList l =>
      HList l
        ((fix go (l : list pyval) : Forall P l :=
            match l with
            | [] => Forall_nil P
            | x :: l' => Forall_cons x (pyval_induction x) (go l')
            end) l)
  | PDict d =>
      HDict d
        ((fix go (d : pydict) : Forall (fun kv => P (snd kv)) d :=
            match d with
            | [] => Forall_nil _
            | (k, x) :: d' =>
                Forall_cons (k, x) (pyval_induction x) (go d')
            end) d)
  end.

End PyvalInduction.

Section Encoding.

Variable E : environment.

Lemma change_encoding_dict (d : pydict) (encoding : string) :
  change_encoding E (PDict d) encoding =
  (pairs <- encode_items E encoding d ;; Ok (PDict (dict E pairs))).
Proof. reflexivity. Qed.

Lemma change_encoding_list (l : list pyval) (encoding : string) :
  change_encoding E (PList l) encoding =
  (l' <- encode_elems E encoding l ;; Ok (PList l')).
Proof. reflexivity. Qed.

Lemma all_strings_dict (p : pystr -> bool) (d : pydict) :
  all_strings p (PDict d) =
  forallb (fun kv => p (fst kv) && all_strings p (snd kv)) d.
Proof. simpl. induction d as [|[k v] d IH]; simpl; congruence. Qed.

Lemma all_strings_list (p : pystr -> bool) (l : list pyval) :
  all_strings p (PList l) = forallb (all_strings p) l.
Proof. simpl. induction l as [|x l IH]; simpl; congruence. Qed.

(** What holds of the keys and of the values of the pairs holds of those of
    the dict made of them. *)
Lemma forallb_dict_set_kv (A : pystr -> bool) (B : pyval -> bool)
    (d : pydict) (k : pystr) (v : pyval) :
  forallb (fun kv => A (fst kv) && B (snd kv)) d = true ->
  A k = true -> B v = true ->
  forallb (fun kv => A (fst kv) && B (snd kv)) (dict_set E d k v) = true.
Proof.
  intros Hd Hk Hv. induction d as [|[k0 v0] d IH]; simpl in *.
  - now rewrite Hk, Hv.
  - apply andb_true_iff in Hd as [H0 Hd]. apply andb_true_iff in H0 as [Hk0 Hv0].
    destruct (str_eqb E k0 k); simpl.
    + now rewrite Hk0, Hv, Hd.
    + now rewrite Hk0, Hv0, IH.
Qed.

Lemma forallb_fold_dict_set (A : pystr -> bool) (B : pyval -> bool)
    (l : pydict) : forall acc,
  forallb (fun kv => A (fst kv) && B (snd kv)) acc = true ->
  forallb (fun kv => A (fst kv) && B (snd kv)) l = true ->
  forallb (fun kv => A (fst kv) && B (snd kv))
    (fold_left (fun d kv => dict_set E d (fst kv) (snd kv)) l acc) = true.
Proof.
  induction l as [|[k v] l IH]; intros acc Hacc Hl; simpl in *; auto.
  apply andb_true_iff in Hl as [Hkv Hl]. apply andb_true_iff in Hkv as [Hk Hv].
  apply IH; auto. now apply forallb_dict_set_kv.
Qed.

Lemma forallb_dict (A : pystr -> bool) (B : pyval -> bool) (pairs : pydict) :
  forallb (fun kv => A (fst kv) && B (snd kv)) pairs = true ->
  forallb (fun kv => A (fst kv) && B (snd kv)) (dict E pairs) = true.
Proof. intros H. now apply forallb_fold_dict_set. Qed.

(** ** The strings of a re-encoded value *)

Lemma encode_string_bytes (s s' : pystr) (encoding : string) :
  encode_string E s encoding = Ok s' -> is_bytes s' = true.
Proof.
  destruct s as [t|t]; simpl.
  - intros H. apply bind_ok in H as (b & _ & [= <-]). reflexivity.
  - destruct (py3 E); [now intros [= <-]|].
    destruct (is_ascii t); [|discriminate].
    intros H. apply bind_ok in H as (b & _ & [= <-]). reflexivity.
Qed.

Lemma encode_elems_forall (B : pyval -> bool) (encoding : string)
    (l : list pyval) :
  Forall (fun x => forall encoding result,
                     change_encoding E x encoding = Ok result ->
                     B result = true) l ->
  forall l', encode_elems E encoding l = Ok l' -> forallb B l' = true.
Proof.
  induction 1 as [|x l Hx _ IH]; intros l' Hl; simpl in Hl.
  - now injection Hl as <-.
  - apply bind_ok in Hl as (v & Hv & Hl).
    apply bind_ok in Hl as (r & Hr & [= <-]).
    cbn [forallb]. now rewrite (Hx _ _ Hv), (IH _ Hr).
Qed.

Lemma encode_items_forall (A : pystr -> bool) (B : pyval -> bool)
    (encoding : string) (d : pydict) :
  (forall k k', encode_string E k encoding = Ok k' -> A k' = true) ->
  Forall (fun kv => forall encoding result,
                      change_encoding E (snd kv) encoding = Ok result ->
                      B result = true) d ->
  forall pairs,
    encode_items E encoding d = Ok pairs ->
    forallb (fun kv => A (fst kv) && B (snd kv)) pairs = true.
Proof.
  intros HA. induction 1 as [|[k x] d Hx _ IH]; intros pairs Hp; simpl in Hp.
  - now injection Hp as <-.
  - apply bind_ok in Hp as (k' & Hk & Hp). apply bind_ok in Hp as (v & Hv & Hp).
    apply bind_ok in Hp as (r & Hr & [= <-]).
    cbn [forallb fst snd]. now rewrite (HA _ _ Hk), (Hx _ _ Hv), (IH _ Hr).
Qed.

Lemma reencoded_all_bytes (jsonObject : pyval) :
  forall encoding result,
    change_encoding E jsonObject encoding = Ok result ->
    all_bytes result = true.
Proof.
  induction jsonObject as [| b | z | m x | s | l IH | d IH] using pyval_induction;
    intros encoding result H; try (injection H as <-; reflexivity).
  - simpl in H. apply bind_ok in H as (s' & Hs & [= <-]).
    simpl. eapply encode_string_bytes; eauto.
  - rewrite change_encoding_list in H. apply bind_ok in H as (l' & Hl & [= <-]).
    unfold all_bytes. rewrite all_strings_list.
    apply (encode_elems_forall _ encoding l IH _ Hl).
  - rewrite change_encoding_dict in H.
    apply bind_ok in H as (pairs & Hp & [= <-]).
    unfold all_bytes. rewrite all_strings_dict. apply forallb_dict.
    apply (encode_items_forall is_bytes _ encoding d); auto.
    intros k k' Hk. eapply encode_string_bytes; eauto.
Qed.

(** X1: whatever the Python version and the codec, every string of a value that
    [change_encoding] returns is a byte string, the keys of its dicts
    included. *)
Theorem reencoded_strings_are_bytes jsonObject encoding result :
  change_encoding E jsonObject encoding = Ok result ->
  all_bytes result = true.
Proof. apply reencoded_all_bytes. Qed.

(** ** Values without strings, and unknown encodings *)

Lemma no_strings_dict (d : pydict) :
  no_strings (PDict d) = match d with [] => true | _ => false end.
Proof. destruct d as [|[k v] d]; reflexivity. Qed.

Lemma encode_elems_unchanged (encoding : string) (l : list pyval) :
  Forall (fun x => no_strings x = true ->
                   change_encoding E x encoding = Ok x) l ->
  forallb no_strings l = true ->
  encode_elems E encoding l = Ok l.
Proof.
  induction 1 as [|x l Hx _ IH]; simpl; [reflexivity|].
  rewrite andb_true_iff. intros [H1 H2]. now rewrite (Hx H1), (IH H2).
Qed.

(** Short of the recursion limit a value that holds no string at all is
    returned as it is: the codec is never asked. *)
Lemma no_strings_unchanged (jsonObject : pyval) :
  forall encoding,
    no_strings jsonObject = true ->
    change_encoding E jsonObject encoding = Ok jsonObject.
Proof.
  induction jsonObject as [| b | z | m x | s | l IH | d IH] using pyval_induction;
    intros encoding H; try reflexivity.
  - discriminate H.
  - rewrite change_encoding_list. unfold no_strings in H.
    rewrite all_strings_list in H.
    rewrite (encode_elems_unchanged encoding l); [reflexivity| |exact H].
    eapply Forall_impl; [|exact IH]. intros x Hx. apply Hx.
  - rewrite no_strings_dict in H. destruct d; [reflexivity|discriminate].
Qed.

(** Short of the recursion limit, when the codec refuses every string, a
    document of [json.load] is re-encoded if and only if it holds no
    string. *)
Lemma refused_strings_fail (jsonObject : pyval) :
  forall encoding e,
    (forall text, codec_encode E encoding text = Err e) ->
    all_text jsonObject = true ->
    change_encoding E jsonObject encoding
    = if no_strings jsonObject then Ok jsonObject else Err e.
Proof.
  induction jsonObject as [| b | z | m x | s | l IH | d IH] using pyval_induction;
    intros encoding e Hcodec Htext; try reflexivity.
  - destruct s as [t|t]; [|discriminate Htext]. simpl. now rewrite Hcodec.
  - rewrite change_encoding_list. unfold no_strings, all_text in *.
    rewrite all_strings_list in *.
    assert (H : encode_elems E encoding l
                = if forallb (all_strings (fun _ => false)) l
                  then Ok l else Err e).
    { revert Htext. induction IH as [|x l Hx _ IHl]; simpl; [reflexivity|].
      rewrite andb_true_iff. intros [H1 H2].
      rewrite (Hx encoding e Hcodec H1).
      destruct (all_strings (fun _ => false) x); simpl; [|reflexivity].
      rewrite (IHl H2).
      destruct (forallb (all_strings (fun _ => false)) l); reflexivity. }
    rewrite H.
    destruct (forallb (all_strings (fun _ => false)) l); reflexivity.
  - rewrite change_encoding_dict, no_strings_dict.
    destruct d as [|[k x] d]; [reflexivity|].
    unfold all_text in Htext. rewrite all_strings_dict in Htext. simpl in Htext.
    destruct k as [t|t]; [|discriminate Htext]. simpl. now rewrite Hcodec.
Qed.

(** ** Dicts with distinct keys *)

Lemma dict_set_new (d : pydict) (k : pystr) (v : pyval) :
  has_key E k d = false -> dict_set E d k v = (d ++ [(k, v)])%list.
Proof.
  induction d as [|[k0 v0] d IH]; simpl; [reflexivity|].
  destruct (str_eqb E k0 k); simpl; [discriminate|].
  intros H. now rewrite IH.
Qed.

Lemma keys_distinct_middle (acc l : pydict) (k : pystr) (v : pyval) :
  keys_distinct E (acc ++ (k, v) :: l)%list = true -> has_key E k acc = false.
Proof.
  induction acc as [|[a va] acc IH]; simpl; [reflexivity|].
  rewrite andb_true_iff, negb_true_iff. intros [Ha Hd].
  unfold has_key in Ha. rewrite existsb_app in Ha.
  apply orb_false_elim in Ha as [_ Ha]. simpl in Ha.
  apply orb_false_elim in Ha as [Ha _].
  rewrite str_eqb_sym, Ha. simpl. auto.
Qed.

Lemma fold_dict_set_distinct (l : pydict) : forall acc,
  keys_distinct E (acc ++ l)%list = true ->
  fold_left (fun d kv => dict_set E d (fst kv) (snd kv)) l acc
  = (acc ++ l)%list.
Proof.
  induction l as [|[k v] l IH]; intros acc H; simpl.
  - now rewrite app_nil_r.
  - rewrite (dict_set_new _ _ _ (keys_distinct_middle _ _ _ _ H)).
    rewrite IH; rewrite <- app_assoc; [reflexivity|exact H].
Qed.

(** [dict] of pairs whose keys are distinct is those pairs. *)
Lemma dict_distinct (pairs : pydict) :
  keys_distinct E pairs = true -> dict E pairs = pairs.
Proof. intros H. unfold dict. now rewrite fold_dict_set_distinct. Qed.

Lemma keys_distinct_dict_set (d : pydict) (k : pystr) (v : pyval) :
  keys_distinct E d = true -> keys_distinct E (dict_set E d k v) = true.
Proof.
  induction d as [|[k0 v0] d IH]; simpl; [reflexivity|].
  rewrite andb_true_iff, negb_true_iff. intros [H0 Hd].
  destruct (str_eqb E k0 k) eqn:Hk; simpl.
  - now rewrite H0, Hd.
  - rewrite has_key_dict_set, H0, (IH Hd). simpl.
    now rewrite str_eqb_sym, Hk.
Qed.

Lemma keys_distinct_dict (pairs : pydict) : keys_distinct E (dict E pairs) = true.
Proof.
  unfold dict.
  assert (H : forall l acc,
             keys_distinct E acc = true ->
             keys_distinct E
               (fold_left (fun d kv => dict_set E d (fst kv) (snd kv)) l acc)
             = true).
  { induction l as [|[k v] l IH]; intros acc Hacc; simpl; auto.
    apply IH. now apply keys_distinct_dict_set. }
  now apply H.
Qed.

Lemma well_keyed_dict (d : pydict) :
  well_keyed E (PDict d) =
  keys_distinct E d
  && forallb (fun kv => true && well_keyed E (snd kv)) d.
Proof. simpl. f_equal. induction d as [|[k v] d IH]; simpl; congruence. Qed.

Lemma well_keyed_list (l : list pyval) :
  well_keyed E (PList l) = forallb (well_keyed E) l.
Proof. simpl. induction l as [|x l IH]; simpl; congruence. Qed.

(** Every dict of a re-encoded value has distinct keys, as [dict] builds
    it. *)
Lemma reencoded_well_keyed (jsonObject : pyval) :
  forall encoding result,
    change_encoding E jsonObject encoding = Ok result ->
    well_keyed E result = true.
Proof.
  induction jsonObject as [| b | z | m x | s | l IH | d IH] using pyval_induction;
    intros encoding result H; try (injection H as <-; reflexivity).
  - simpl in H. apply bind_ok in H as (s' & Hs & [= <-]). reflexivity.
  - rewrite change_encoding_list in H. apply bind_ok in H as (l' & Hl & [= <-]).
    rewrite well_keyed_list.
    apply (encode_elems_forall _ encoding l IH _ Hl).
  - rewrite change_encoding_dict in H.
    apply bind_ok in H as (pairs & Hp & [= <-]).
    rewrite well_keyed_dict, keys_distinct_dict. cbn [andb].
    apply (forallb_dict (fun _ => true)).
    apply (encode_items_forall (fun _ => true) _ encoding d); auto.
Qed.

(** ** Re-encoding what is already encoded *)

Lemma bytes_unchanged_python3 (jsonObject : pyval) :
  py3 E = true ->
  forall encoding,
    all_bytes jsonObject = true ->
    well_keyed E jsonObject = true ->
    change_encoding E jsonObject encoding = Ok jsonObject.
Proof.
  intros Hv.
  induction jsonObject as [| b | z | m x | s | l IH | d IH] using pyval_induction;
    intros encoding Hb Hw; try reflexivity.
  - destruct s as [t|t]; [discriminate Hb|]. simpl. now rewrite Hv.
  - rewrite change_encoding_list. unfold all_bytes in Hb.
    rewrite all_strings_list in Hb. rewrite well_keyed_list in Hw.
    assert (H : encode_elems E encoding l = Ok l).
    { revert Hb Hw. induction IH as [|y l Hy _ IHl]; simpl; [reflexivity|].
      rewrite !andb_true_iff. intros [H1 H2] [H3 H4].
      now rewrite (Hy encoding H1 H3), (IHl H2 H4). }
    now rewrite H.
  - rewrite change_encoding_dict. unfold all_bytes in Hb.
    rewrite all_strings_dict in Hb. rewrite well_keyed_dict in Hw.
    apply andb_true_iff in Hw as [Hd Hw].
    assert (H : encode_items E encoding d = Ok d).
    { clear Hd. revert Hb Hw.
      induction IH as [|[k y] d Hy _ IHd]; simpl; [reflexivity|].
      rewrite !andb_true_iff. intros [[H1 H1'] H2] [H3 H4].
      destruct k as [t|t]; [discriminate H1|]. simpl. rewrite Hv. simpl.
      simpl in Hy. now rewrite (Hy encoding H1' H3), (IHd H2 H4). }
    rewrite H. simpl. now rewrite dict_distinct.
Qed.

(** X4: on Python 3 re-encoding is idempotent: a value that [change_encoding]
    returned is returned unchanged by another call, whatever the encoding
    of that call. *)
Theorem reencoding_twice_python3 jsonObject encoding encoding' result :
  py3 E = true ->
  change_encoding E jsonObject encoding = Ok result ->
  change_encoding E result encoding' = Ok result.
Proof.
  intros Hv H. apply bytes_unchanged_python3; auto.
  - eapply reencoded_all_bytes; eauto.
  - eapply reencoded_well_keyed; eauto.
Qed.

(** ** Re-encoding an ASCII document *)

Lemma as_bytes_dict (d : pydict) :
  as_bytes (PDict d)
  = PDict (map (fun kv => (Bytes (raw (fst kv)), as_bytes (snd kv))) d).
Proof.
  induction d as [|[k v] d IH]; [reflexivity|].
  simpl in *. congruence.
Qed.

Lemma as_bytes_list (l : list pyval) :
  as_bytes (PList l) = PList (map as_bytes l).
Proof.
  induction l as [|x l IH]; [reflexivity|].
  simpl in *. congruence.
Qed.

Lemma has_key_as_bytes (d : pydict) (t : string) :
  forallb (fun kv => is_text (fst kv)) d = true ->
  has_key E (Bytes t)
    (map (fun kv => (Bytes (raw (fst kv)), as_bytes (snd kv))) d)
  = has_key E (Text t) d.
Proof.
  induction d as [|[k v] d IH]; simpl; [reflexivity|].
  rewrite andb_true_iff. intros [Hk Hd].
  destruct k as [x|x]; [|discriminate Hk]. simpl. now rewrite IH.
Qed.

Lemma keys_distinct_as_bytes (d : pydict) :
  forallb (fun kv => is_text (fst kv)) d = true ->
  keys_distinct E d = true ->
  keys_distinct E
    (map (fun kv => (Bytes (raw (fst kv)), as_bytes (snd kv))) d) = true.
Proof.
  induction d as [|[k v] d IH]; simpl; [reflexivity|].
  rewrite !andb_true_iff. intros [Hk Hd] [Hn Hdist].
  destruct k as [x|x]; [|discriminate Hk]. simpl.
  rewrite has_key_as_bytes by exact Hd. auto.
Qed.

(** Short of the recursion limit, with a codec that returns ASCII text as it
    is, a document whose strings are ASCII text is re-encoded to the same
    document with a byte string in place of each text string. *)
Lemma ascii_reencoded (jsonObject : pyval) :
  forall encoding,
    (forall text, is_ascii text = true ->
                  codec_encode E encoding text = Ok text) ->
    all_strings ascii_text jsonObject = true ->
    well_keyed E jsonObject = true ->
    change_encoding E jsonObject encoding = Ok (as_bytes jsonObject).
Proof.
  induction jsonObject as [| b | z | m x | s | l IH | d IH] using pyval_induction;
    intros encoding Hcodec Ha Hw; try reflexivity.
  - destruct s as [t|t]; [|discriminate Ha]. simpl in *. now rewrite Hcodec.
  - rewrite change_encoding_list, as_bytes_list.
    rewrite all_strings_list in Ha. rewrite well_keyed_list in Hw.
    assert (H : encode_elems E encoding l = Ok (map as_bytes l)).
    { revert Ha Hw. induction IH as [|y l Hy _ IHl]; simpl; [reflexivity|].
      rewrite !andb_true_iff. intros [H1 H2] [H3 H4].
      now rewrite (Hy encoding Hcodec H1 H3), (IHl H2 H4). }
    now rewrite H.
  - rewrite change_encoding_dict, as_bytes_dict.
    rewrite all_strings_dict in Ha. rewrite well_keyed_dict in Hw.
    apply andb_true_iff in Hw as [Hd Hw].
    assert (Htext : forallb (fun kv => is_text (fst kv)) d = true).
    { clear - Ha. induction d as [|[k v] d IHd]; simpl in *; [reflexivity|].
      unfold ascii_text in Ha at 1. rewrite !andb_true_iff in Ha.
      destruct Ha as [[[Hk _] _] Ha]. now rewrite Hk, IHd. }
    assert (H : encode_items E encoding d
                = Ok (map (fun kv => (Bytes (raw (fst kv)), as_bytes (snd kv))) d)).
    { clear Hd Htext. revert Ha Hw.
      induction IH as [|[k y] d Hy _ IHd]; simpl; [reflexivity|].
      rewrite !andb_true_iff. intros [[H1 H1'] H2] [H3 H4].
      destruct k as [t|t]; [|discriminate H1]. simpl in *.
      rewrite Hcodec by exact H1. simpl.
      now rewrite (Hy encoding Hcodec H1' H3), (IHd H2 H4). }
    rewrite H. simpl. rewrite dict_distinct; [reflexivity|].
    now apply keys_distinct_as_bytes.
Qed.

(** ** Re-encoded external references on Python 3 *)

Lemma all_bytes_get_python3 (n t : pyval) (k : string) :
  py3 E = true -> all_bytes n = true ->
  py_get E n (lit E k) = Ok t -> t = PNone.
Proof.
  intros Hv Hb. destruct n as [| | | | | |d]; simpl; try discriminate.
  intros [= <-]. unfold all_bytes in Hb. rewrite all_strings_dict in Hb.
  unfold lit. rewrite Hv.
  assert (H : lookup E (Text k) d = None).
  { induction d as [|[k0 v0] d IH]; simpl in *; [reflexivity|].
    rewrite !andb_true_iff in Hb. destruct Hb as [[Hk _] Hb].
    destruct k0 as [x|x]; [discriminate Hk|]. simpl. rewrite Hv. simpl. auto. }
  now rewrite H.
Qed.

(** X6: on Python 3, when an encoding is given, a property that is an external
    reference never gets an entry in the document of a call that returns:
    the keys of the re-encoded node are byte strings, and its type is not
    found. *)
Theorem reencoded_reference_is_skipped_python3 encoding externalRefLoc depth
    schema before i d after st ref defs found schema' :
  py3 E = true ->
  str_truthy encoding = true ->
  py_get E schema (lit E "properties")
    = Ok (PDict (before ++ (i, PDict d) :: after)) ->
  has_key E i before = false ->
  has_key E i after = false ->
  extract_schema_defaults E (Some encoding) externalRefLoc (S depth) schema
    = Ok (defs, found, schema') ->
  reaches E (Some encoding) externalRefLoc depth schema before st ->
  lookup E (lit E "$ref") d = Some ref ->
  startswith E ref "file:" = Ok true ->
  lookup E i defs = None.
Proof.
  intros Hv Henc Hp Hbefore Hafter H Hreach Hl Hs.
  destruct (extract_split E (Some encoding) externalRefLoc depth schema before
              i (PDict d) after st defs found schema' Hp H Hreach)
    as (st' & Hb & Hloop).
  pose proof (reaches_lookup E (Some encoding) externalRefLoc depth schema
                before st i Hreach Hbefore) as Hnone.
  destruct st as [[defs0 found0] schema0]. simpl in Hnone.
  apply loop_body_dispatched in Hb as (n & t & Hn & Ht & Hd).
  unfold resolve in Hn. cbn [py_keys bind] in Hn.
  rewrite has_key_keys, has_key_lookup, Hl in Hn. cbn [py_get bind] in Hn.
  rewrite Hl, Hs in Hn. cbn [bind] in Hn. unfold load_external in Hn.
  apply bind_ok in Hn as (path & _ & Hn).
  apply bind_ok in Hn as (externalSchema & _ & Hn). rewrite Henc in Hn.
  apply reencoded_all_bytes in Hn.
  pose proof (all_bytes_get_python3 n t "type" Hv Hn Ht) as ->.
  assert (Hst : st' = (defs0, found0, schema0))
    by (inversion Hd; subst; try discriminate; reflexivity).
  subst st'.
  rewrite (loop_lookup E (Some encoding) externalRefLoc _ after defs0 found0
             schema0 defs found schema' i Hloop Hafter).
  exact Hnone.
Qed.

(** * [change_encoding] within the recursion limit *)

Lemma map_items_ext (f f' : pystr -> result pystr)
    (g g' : pyval -> result pyval) (d : pydict) :
  Forall (fun kv => f (fst kv) = f' (fst kv) /\ g (snd kv) = g' (snd kv)) d ->
  map_items f g d = map_items f' g' d.
Proof.
  induction 1 as [|[k v] d [Hk Hv] _ IH]; [reflexivity|].
  cbn [map_items]. cbn [fst snd] in Hk, Hv. now rewrite Hk, Hv, IH.
Qed.

Lemma map_elems_ext (g g' : pyval -> result pyval) (l : list pyval) :
  Forall (fun v => g v = g' v) l -> map_elems g l = map_elems g' l.
Proof.
  induction 1 as [|v l Hv _ IH]; [reflexivity|].
  cbn [map_elems]. now rewrite Hv, IH.
Qed.

Lemma map_items_encode (encoding : string) (d : pydict) :
  map_items (fun k => encode_string E k encoding)
    (fun v => change_encoding E v encoding) d
  = encode_items E encoding d.
Proof.
  induction d as [|[k v] d IH]; [reflexivity|].
  cbn [map_items encode_items]. now rewrite IH.
Qed.

Lemma map_elems_encode (encoding : string) (l : list pyval) :
  map_elems (fun v => change_encoding E v encoding) l
  = encode_elems E encoding l.
Proof.
  induction l as [|v l IH]; [reflexivity|].
  cbn [map_elems encode_elems]. now rewrite IH.
Qed.

(** A call that fails for want of depth, or else goes as it would without the
    limit, leaves the comprehension in the same alternative. *)
Lemma map_items_refines (f f' : pystr -> result pystr)
    (g g' : pyval -> result pyval) (d : pydict) :
  (forall k, f k = f' k \/ f k = Err RecursionError) ->
  (forall v, g v = g' v \/ g v = Err RecursionError) ->
  map_items f g d = map_items f' g' d
  \/ map_items f g d = Err RecursionError.
Proof.
  intros Hf Hg. induction d as [|[k v] d IH]; [now left|].
  cbn [map_items].
  destruct (Hf k) as [-> | ->]; [|now right].
  destruct (f' k) as [k'|e]; [|now left]. cbn [bind].
  destruct (Hg v) as [-> | ->]; [|now right].
  destruct (g' v) as [v'|e]; [|now left]. cbn [bind].
  destruct IH as [-> | ->]; [now left|now right].
Qed.

Lemma map_elems_refines (g g' : pyval -> result pyval) (l : list pyval) :
  (forall v, g v = g' v \/ g v = Err RecursionError) ->
  map_elems g l = map_elems g' l \/ map_elems g l = Err RecursionError.
Proof.
  intros Hg. induction l as [|v l IH]; [now left|].
  cbn [map_elems].
  destruct (Hg v) as [-> | ->]; [|now right].
  destruct (g' v) as [v'|e]; [|now left]. cbn [bind].
  destruct IH as [-> | ->]; [now left|now right].
Qed.

Lemma height_positive (v : pyval) : 1 <= height v.
Proof. destruct v; simpl; lia. Qed.

Lemma height_list (l : list pyval) (n : nat) :
  height (PList l) <= S n -> Forall (fun v => height v <= n) l.
Proof.
  induction l as [|v l IH]; [constructor|].
  intros H. simpl in H. constructor; [lia|].
  apply IH. simpl. lia.
Qed.

Lemma height_dict (d : pydict) (n : nat) :
  height (PDict d) <= S n -> Forall (fun kv => height (snd kv) <= n) d.
Proof.
  induction d as [|[k v] d IH]; [constructor|].
  intros H. simpl in H. constructor; [simpl; lia|].
  apply IH. simpl. lia.
Qed.

(** With [height v] nested calls allowed the limit is not reached. *)
Lemma within_enough (encoding : string) (depth : nat) : forall v,
  height v <= depth ->
  change_encoding_within E encoding depth v = change_encoding E v encoding.
Proof.
  induction depth as [|n IH]; intros v H.
  - pose proof (height_positive v). lia.
  - destruct v as [| b | z | m x | s | l | d]; try reflexivity.
    + cbn [change_encoding_within].
      rewrite change_encoding_list, <- map_elems_encode.
      rewrite (map_elems_ext _ (fun v => change_encoding E v encoding));
        [reflexivity|].
      eapply Forall_impl; [|apply height_list; exact H].
      intros v Hv. now apply IH.
    + cbn [change_encoding_within].
      rewrite change_encoding_dict, <- map_items_encode.
      rewrite (map_items_ext _ (fun k => encode_string E k encoding)
                 _ (fun v => change_encoding E v encoding));
        [reflexivity|].
      eapply Forall_impl; [|apply height_dict; exact H].
      intros [k v] Hv. cbn [fst snd] in *. split; [|now apply IH].
      pose proof (height_positive v).
      destruct n as [|n']; [lia|reflexivity].
Qed.

(** At any depth the call fails for want of depth or goes as it would without
    the limit. *)
Lemma within_refines (encoding : string) (depth : nat) : forall v,
  change_encoding_within E encoding depth v = change_encoding E v encoding
  \/ change_encoding_within E encoding depth v = Err RecursionError.
Proof.
  induction depth as [|n IH]; intros v; [now right|].
  destruct v as [| b | z | m x | s | l | d]; try (left; reflexivity).
  - cbn [change_encoding_within].
    rewrite change_encoding_list, <- map_elems_encode.
    destruct (map_elems_refines (change_encoding_within E encoding n)
                (fun v => change_encoding E v encoding) l IH) as [-> | ->];
      [now left|now right].
  - cbn [change_encoding_within].
    rewrite change_encoding_dict, <- map_items_encode.
    destruct (map_items_refines (encode_key E encoding n)
                (fun k => encode_string E k encoding)
                (change_encoding_within E encoding n)
                (fun v => change_encoding E v encoding) d) as [-> | ->];
      [|exact IH|now left|now right].
    intros k. destruct n; [now right|now left].
Qed.

(** X2: a value that holds no string at all (numbers, booleans, [None], lists
    of those, empty dicts) is returned as it is, whatever the encoding is
    called, when its nesting is within the recursion limit: the codec is
    never asked. Beyond the limit the call raises [RecursionError]. *)
Theorem value_without_strings_is_unchanged (jsonObject : pyval) :
  forall encoding depth,
    no_strings jsonObject = true ->
    (height jsonObject <= depth ->
     change_encoding_within E encoding depth jsonObject = Ok jsonObject)
    /\ (change_encoding_within E encoding depth jsonObject = Ok jsonObject
        \/ change_encoding_within E encoding depth jsonObject
           = Err RecursionError).
Proof.
  intros encoding depth H.
  pose proof (no_strings_unchanged jsonObject encoding H) as Hfree.
  split.
  - intros Hd. now rewrite within_enough.
  - destruct (within_refines encoding depth jsonObject) as [Hr|Hr];
      [left|right]; congruence.
Qed.

(** X3: when the codec refuses every string (an encoding it does not know),
    re-encoding a document of [json.load] whose nesting is within the
    recursion limit fails with the codec's error as soon as the document
    holds a string, and only then; at no depth is a document that holds a
    string re-encoded. *)
Theorem unknown_encoding_fails_on_strings (jsonObject : pyval) :
  forall encoding e depth,
    (forall text, codec_encode E encoding text = Err e) ->
    all_text jsonObject = true ->
    (height jsonObject <= depth ->
     change_encoding_within E encoding depth jsonObject
     = if no_strings jsonObject then Ok jsonObject else Err e)
    /\ (forall result,
          change_encoding_within E encoding depth jsonObject = Ok result ->
          no_strings jsonObject = true /\ result = jsonObject).
Proof.
  intros encoding e depth Hcodec Htext.
  pose proof (refused_strings_fail jsonObject encoding e Hcodec Htext)
    as Hfree.
  split.
  - intros Hd. now rewrite within_enough.
  - intros result Hr.
    destruct (within_refines encoding depth jsonObject) as [Hw|Hw];
      [|congruence].
    rewrite Hw, Hfree in Hr.
    destruct (no_strings jsonObject); [|discriminate Hr].
    split; [reflexivity|]. congruence.
Qed.

(** X5: with a codec that returns ASCII text as it is (UTF-8, ASCII, Latin-1),
    a document whose strings are ASCII text and whose nesting is within the
    recursion limit is re-encoded to the same document with a byte string in
    place of each text string; at no depth is anything else returned. *)
Theorem ascii_document_reencoded (jsonObject : pyval) :
  forall encoding depth,
    (forall text, is_ascii text = true ->
                  codec_encode E encoding text = Ok text) ->
    all_strings ascii_text jsonObject = true ->
    well_keyed E jsonObject = true ->
    (height jsonObject <= depth ->
     change_encoding_within E encoding depth jsonObject
     = Ok (as_bytes jsonObject))
    /\ (forall result,
          change_encoding_within E encoding depth jsonObject = Ok result ->
          result = as_bytes jsonObject).
Proof.
  intros encoding depth Hcodec Ha Hw.
  pose proof (ascii_reencoded jsonObject encoding Hcodec Ha Hw) as Hfree.
  split.
  - intros Hd. now rewrite within_enough.
  - intros result Hr.
    destruct (within_refines encoding depth jsonObject) as [Hq|Hq];
      congruence.
Qed.

End Encoding.

(** ** Arguments that are empty *)

(** X7: an empty [newEncoding] and an empty [externalRefLoc] are taken as
    [None]: nothing is re-encoded, and files are sought from the working
    directory. *)
Theorem empty_arguments_as_absent E newEncoding externalRefLoc depth schema :
  extract_schema_defaults E (Some "") externalRefLoc depth schema
  = extract_schema_defaults E None externalRefLoc depth schema
  /\ extract_schema_defaults E newEncoding (Some "") depth schema
     = extract_schema_defaults E newEncoding None depth schema.
Proof. split; reflexivity. Qed.

(** * The theorems at work *)

(** A null, a string without a default and an integer with the default 0:
    the null and the integer are listed. *)
Example three_properties_defaults :
  returned (extract_schema_defaults python3 None None 1 three_properties)
  = Ok ([(Text "n", PNone); (Text "i", PInt 0)], true).
Proof. reflexivity. Qed.

(** The external reference: without re-encoding, and re-encoded on
    Python 2, the integer of [ext.json] is found; re-encoded on Python 3 it
    is not. *)
Example external_reference_not_reencoded :
  returned (extract_schema_defaults python3 None None 1 external_schema)
  = Ok ([(Text "p", PInt 7)], true).
Proof. reflexivity. Qed.

Example external_reference_reencoded_python2 :
  returned
    (extract_schema_defaults python2 (Some "utf-8") None 1 external_schema)
  = Ok ([(Text "p", PInt 7)], true).
Proof. reflexivity. Qed.

Example external_reference_reencoded_python3 :
  returned
    (extract_schema_defaults python3 (Some "utf-8") None 1 external_schema)
  = Ok ([], false).
Proof. reflexivity. Qed.

(** The pointer [#/properties/x] of the sibling [b] names nothing in the
    schema as given; it is walked after the descent into [a], and finds the
    [x] of [a]. *)
Example sibling_pointer_defaults :
  reduce_get python3 [Text "properties"; Text "x"] sibling_pointer = Ok PNone
  /\ returned (extract_schema_defaults python3 None None 2 sibling_pointer)
     = Ok ([(Text "a", obj [("x", PNone)]); (Text "b", PNone)], true).
Proof. split; reflexivity. Qed.

(** The specification's listing rule fails on [untyped_and_null_child]:
    [p] has an explicit default and is not listed, [a] has none, is not
    typed null, and is listed. *)
Lemma specified_listing_fails :
  returned (extract_schema_defaults python3 None None 2 untyped_and_null_child)
  = Ok ([(Text "a", obj [("n", PNone)])], true)
  /\ specified_listed python3 untyped_node
  /\ has_key python3 (Text "p") [(Text "a", obj [("n", PNone)])] = false
  /\ ~ specified_listed python3 object_of_null
  /\ has_key python3 (Text "a") [(Text "a", obj [("n", PNone)])] = true.
Proof.
  split; [reflexivity|]. split; [left; now constructor|].
  split; [reflexivity|]. split; [|reflexivity].
  intros [H|(d & Hd & Hnull)].
  - inversion H as [d Hk|d ps name child Ht Hp Hin Hc]; subst.
    + discriminate Hk.
    + injection Hp as <-. destruct Hin as [[= <- <-]|[]].
      inversion Hc as [d' Hk|d' ps' name' child' Ht' Hp']; subst.
      * discriminate Hk.
      * discriminate Ht'.
  - injection Hd as <-. discriminate Hnull.
Qed.

(** The walk of [#/a/b] fails on the number under [a], and the resolution
    raises instead of yielding [None]. *)
Lemma truthy_intermediate_raises :
  walk_fails python3 [Text "a"; Text "b"] pointer_through_number = true
  /\ resolve python3 None None pointer_through_number
       (obj [("$ref", str "#/a/b")]) = Err AttributeError.
Proof. split; reflexivity. Qed.

Lemma listing_invariant_witness :
  extract_schema_defaults python3 None None 1 three_properties
  = Ok ([(Text "n", PNone); (Text "i", PInt 0)], true, three_properties)
  /\ (has_key python3 (Text "i") [(Text "n", PNone); (Text "i", PInt 0)] = true
      <-> exists before i j after st n,
            [(Text "n", null_node); (Text "s", string_node);
             (Text "i", integer_node)] = (before ++ (i, j) :: after)%list /\
            str_eqb python3 i (Text "i") = true /\
            reaches python3 None None 0 three_properties before st /\
            resolve python3 None None (schema_of st) j = Ok n /\
            listed python3 None None 0 (schema_of st) n).
Proof.
  split; [reflexivity|].
  apply (listing_invariant python3 None None 0 three_properties
           [(Text "n", null_node); (Text "s", string_node);
            (Text "i", integer_node)]
           [(Text "n", PNone); (Text "i", PInt 0)] true three_properties
           (Text "i")); reflexivity.
Defined.

Lemma null_typed_property_witness :
  extract_schema_defaults python3 None None 1 three_properties
  = Ok ([(Text "n", PNone); (Text "i", PInt 0)], true, three_properties)
  /\ lookup python3 (Text "n") [(Text "n", PNone); (Text "i", PInt 0)]
     = Some PNone
  /\ true = true.
Proof.
  split; [reflexivity|].
  apply (null_typed_property python3 None None 0 three_properties
           [] (Text "n") null_node
           [(Text "s", string_node); (Text "i", integer_node)]
           ([], false, three_properties) null_node (str "null")
           [(Text "n", PNone); (Text "i", PInt 0)] true three_properties);
    reflexivity.
Defined.

Lemma basic_typed_property_witness :
  extract_schema_defaults python3 None None 1 three_properties
  = Ok ([(Text "n", PNone); (Text "i", PInt 0)], true, three_properties)
  /\ lookup python3 (Text "i") [(Text "n", PNone); (Text "i", PInt 0)]
     = Some (PInt 0)
  /\ true = true.
Proof.
  split; [reflexivity|].
  refine (proj1 (proj2 (basic_typed_property python3 None None 0
           three_properties
           [(Text "n", null_node); (Text "s", string_node)]
           (Text "i") integer_node []
           ([(Text "n", PNone)], true, three_properties)
           [(Text "type", str "integer"); (Text "default", PInt 0)]
           (str "integer")
           [(Text "n", PNone); (Text "i", PInt 0)] true three_properties
           _ _ _ _ _ _ _ _)) (PInt 0) _ _);
    reflexivity || discriminate.
Defined.

Lemma broken_local_reference_witness :
  walk_fails python3 [Text "definitions"; Text "Missing"] pointer_to_missing
  = true
  /\ resolve python3 None None pointer_to_missing
       (obj [("$ref", str "#/definitions/Missing")]) = Ok PNone
  /\ py_get python3 PNone (lit python3 "type") = Err AttributeError
  /\ extract_schema_defaults python3 None None 1 pointer_to_missing
     = Err AttributeError.
Proof.
  split; [reflexivity|].
  apply (broken_local_reference python3 None None 0 pointer_to_missing
           [] (Text "p") [(Text "$ref", str "#/definitions/Missing")] []
           ([], false, pointer_to_missing) (str "#/definitions/Missing")
           [Text "#"; Text "definitions"; Text "Missing"]);
    reflexivity.
Defined.

Lemma external_reference_python3_witness :
  load_json python3 (reference_path python3 None "file:ext.json") = Ok ext_json
  /\ (exists reencoded,
        change_encoding python3 ext_json "utf-8" = Ok reencoded /\
        resolve python3 (Some "utf-8") None external_schema
          (obj [("$ref", str "file:ext.json")]) = Ok reencoded /\
        py_get python3 reencoded (lit python3 "type") = Ok PNone)
  /\ extract_schema_defaults python3 (Some "utf-8") None 1 external_schema
     = Ok ([], false, external_schema).
Proof.
  split; [reflexivity|].
  apply (external_reference_python3 python3 "utf-8" None 0);
    try reflexivity.
  intros s [<-|[<-|[<-|[]]]]; eexists; reflexivity.
Defined.

Lemma missing_properties_raises_witness :
  lookup python3 (lit python3 "properties") [(Text "type", str "object")] = None
  /\ extract_schema_defaults python3 None None 1 no_properties
     = Err AttributeError.
Proof.
  split; [reflexivity|].
  apply (missing_properties_raises python3 None None 0 no_properties).
  intros d [= <-]. reflexivity.
Defined.

Lemma input_schema_is_mutated_witness :
  extract_schema_defaults python3 None None 2 sibling_pointer
  = Ok ([(Text "a", obj [("x", PNone)]); (Text "b", PNone)], true,
        sibling_pointer_after)
  /\ (exists properties schema1 r st1,
        py_getitem python3 object_node (lit python3 "properties")
          = Ok properties /\
        py_setitem python3 sibling_pointer (lit python3 "properties") properties
          = Ok schema1 /\
        py_get python3 schema1 (lit python3 "properties") = Ok properties /\
        extract_schema_defaults python3 None None 1 schema1 = Ok r /\
        reaches python3 None None 1 sibling_pointer [(Text "a", object_node)] st1 /\
        schema_of st1 = schema_of r)
  /\ sibling_pointer_after <> sibling_pointer.
Proof.
  split; [reflexivity|].
  apply (input_schema_is_mutated python3 None None 1 sibling_pointer
           [] (Text "a") object_node
           [(Text "b", obj [("$ref", str "#/properties/x")])]
           ([], false, sibling_pointer) object_node (str "object")
           [(Text "a", obj [("x", PNone)]); (Text "b", PNone)] true
           sibling_pointer_after);
    reflexivity.
Defined.

Lemma found_iff_not_empty_witness :
  extract_schema_defaults python3_without_files None None 1 only_a_string
  = Ok ([], false, only_a_string)
  /\ (false = true <-> @nil (pystr * pyval) <> [])
  /\ @nil (pystr * pyval) = [] /\ false = false.
Proof.
  split; [reflexivity|].
  destruct (found_iff_not_empty python3_without_files None None 1
              only_a_string [] false only_a_string eq_refl) as [Hiff Hbare].
  split; [exact Hiff|]. apply Hbare; [reflexivity|].
  intros ref doc H. unfold load_external in H.
  destruct (file_of python3_without_files None ref); discriminate H.
Defined.

(** With a property before it that points at the reference site, the
    reference and the body of [Point] in its place yield different
    documents: the pointer of [q] finds a reference, which has no type, in
    the one, and an object in the other. *)
Lemma inlining_changes_sibling :
  returned
    (extract_schema_defaults python3 None None 2
       (point_after reference_to_site reference_to_point))
  = Ok ([(Text "p", obj [("x", PInt 0)])], true)
  /\ returned
       (extract_schema_defaults python3 None None 2
          (point_after reference_to_site point))
     = Ok ([(Text "q", obj [("x", PInt 0)]); (Text "p", obj [("x", PInt 0)])],
           true)
  /\ outside_properties python3 reference_to_site = false.
Proof. repeat split; reflexivity. Qed.

Lemma reference_as_inlined_witness :
  returned
    (extract_schema_defaults python3 None None 2
       (point_after reference_to_point reference_to_point))
  = returned
      (extract_schema_defaults python3 None None 2
         (point_after reference_to_point point))
  /\ returned
       (extract_schema_defaults python3 None None 2
          (point_after reference_to_point point))
     = Ok ([(Text "q", obj [("x", PInt 0)]); (Text "p", obj [("x", PInt 0)])],
           true).
Proof.
  split; [|reflexivity].
  apply (reference_as_inlined python3 None None 2
           [(Text "properties",
             obj [("q", reference_to_point); ("p", reference_to_point)]);
            (Text "definitions", obj [("Point", point)])]
           [(Text "q", reference_to_point)] (Text "p")
           [(Text "$ref", str "#/definitions/Point")] []
           "#/definitions/Point" (Text "definitions") [Text "Point"]
           [(Text "type", str "object");
            (Text "properties",
             obj [("x", obj [("type", str "integer");
                             ("default", PInt 0)])])]);
    reflexivity.
Defined.

(** * The further theorems at work *)

Lemma reencoded_strings_are_bytes_witness :
  change_encoding python3 ext_json "utf-8" = Ok ext_json_bytes
  /\ all_bytes ext_json_bytes = true.
Proof.
  split; [reflexivity|].
  apply (reencoded_strings_are_bytes python3 ext_json "utf-8" ext_json_bytes).
  reflexivity.
Defined.

Lemma value_without_strings_is_unchanged_witness :
  no_strings numbers_only = true
  /\ height numbers_only <= 2
  /\ change_encoding_within python3 "no-such-codec" 2 numbers_only
     = Ok numbers_only
  /\ change_encoding_within python3 "no-such-codec" 1 numbers_only
     = Err RecursionError.
Proof.
  split; [reflexivity|]. split; [simpl; lia|]. split; [|reflexivity].
  apply (value_without_strings_is_unchanged python3 numbers_only
           "no-such-codec" 2); [reflexivity|simpl; lia].
Defined.

Lemma unknown_encoding_fails_on_strings_witness :
  all_text ext_json = true
  /\ height ext_json <= 2
  /\ change_encoding_within python3 "no-such-codec" 2 ext_json
     = (if no_strings ext_json then Ok ext_json else Err LookupError).
Proof.
  split; [reflexivity|]. split; [simpl; lia|].
  apply (unknown_encoding_fails_on_strings python3 ext_json
           "no-such-codec" LookupError 2).
  - intros text. reflexivity.
  - reflexivity.
  - simpl; lia.
Defined.

Lemma reencoding_twice_python3_witness :
  change_encoding python3 ext_json "utf-8" = Ok ext_json_bytes
  /\ change_encoding python3 ext_json_bytes "ascii" = Ok ext_json_bytes.
Proof.
  split; [reflexivity|].
  apply (reencoding_twice_python3 python3 ext_json "utf-8" "ascii"
           ext_json_bytes); reflexivity.
Defined.

Lemma ascii_document_reencoded_witness :
  all_strings ascii_text ext_json = true
  /\ height ext_json <= 2
  /\ change_encoding_within python2 "utf-8" 2 ext_json
     = Ok (as_bytes ext_json).
Proof.
  split; [reflexivity|]. split; [simpl; lia|].
  apply (ascii_document_reencoded python2 ext_json "utf-8" 2).
  - intros text _. reflexivity.
  - reflexivity.
  - reflexivity.
  - simpl; lia.
Defined.

Lemma reencoded_reference_is_skipped_python3_witness :
  extract_schema_defaults python3 (Some "utf-8") None 1 external_schema
  = Ok ([], false, external_schema)
  /\ lookup python3 (Text "p") [] = None.
Proof.
  split; [reflexivity|].
  apply (reencoded_reference_is_skipped_python3 python3 "utf-8" None 0
           external_schema [] (Text "p")
           [(Text "$ref", str "file:ext.json")] []
           ([], false, external_schema) (str "file:ext.json")
           [] false external_schema); reflexivity.
Defined.

Lemma unknown_type_is_skipped_witness :
  extract_schema_defaults python3 None None 1 unknown_type
  = Ok ([], false, unknown_type)
  /\ lookup python3 (Text "u") [] = None.
Proof.
  split; [reflexivity|].
  apply (unknown_type_is_skipped python3 None None 0 unknown_type
           [] (Text "u") (obj [("type", str "enum"); ("default", PInt 1)]) []
           ([], false, unknown_type)
           (obj [("type", str "enum"); ("default", PInt 1)]) (str "enum")
           [] false unknown_type); reflexivity.
Defined.

Lemma object_entry_is_nested_document_witness :
  extract_schema_defaults python3 None None 2 untyped_and_null_child
  = Ok ([(Text "a", obj [("n", PNone)])], true, null_child_only)
  /\ lookup python3 (Text "a") [(Text "a", obj [("n", PNone)])]
     = Some (PDict [(Text "n", PNone)])
  /\ true = true.
Proof.
  split; [reflexivity|].
  refine (proj1 (object_entry_is_nested_document python3 None None 1
           untyped_and_null_child
           [(Text "p", untyped_node)] (Text "a") object_of_null []
           ([], false, untyped_and_null_child) object_of_null (str "object")
           (obj [("n", obj [("type", str "null")])]) null_child_only
           [(Text "n", PNone)] true null_child_only
           [(Text "a", obj [("n", PNone)])] true null_child_only
           _ _ _ _ _ _ _ _ _ _ _) _);
    reflexivity || discriminate.
Defined.

Lemma object_without_properties_raises_witness :
  lookup python3 (lit python3 "properties") [(Text "type", str "object")] = None
  /\ extract_schema_defaults python3 None None 1 object_without_properties
     = Err KeyError.
Proof.
  split; [reflexivity|].
  apply (object_without_properties_raises python3 None None 0
           object_without_properties [] (Text "o")
           (obj [("type", str "object")]) []
           ([], false, object_without_properties)
           [(Text "type", str "object")]); reflexivity.
Defined.

Lemma malformed_property_raises_witness :
  extract_schema_defaults python3 None None 1 number_as_property
  = Err AttributeError.
Proof.
  apply (malformed_property_raises python3 None None 0 number_as_property
           [] (Text "x") (PInt 5) [] ([], false, number_as_property));
    try reflexivity.
  left. intros d. discriminate.
Defined.

Lemma external_failure_propagates_witness :
  load_external python3 None None (str "file:missing.json") = Err IOError
  /\ extract_schema_defaults python3 None None 1 missing_file = Err IOError.
Proof.
  split; [reflexivity|].
  apply (external_failure_propagates python3 None None 0 missing_file
           [] (Text "p") [(Text "$ref", str "file:missing.json")] []
           ([], false, missing_file) (str "file:missing.json") IOError);
    reflexivity.
Defined.

Lemma only_properties_is_assigned_witness :
  py_keys (point_by_reference_after (Text "p"))
  = py_keys (point_by_reference (Text "p"))
  /\ forall k, str_eqb python3 (lit python3 "properties") k = false ->
               py_get python3 (point_by_reference_after (Text "p")) k
               = py_get python3 (point_by_reference (Text "p")) k.
Proof.
  apply (only_properties_is_assigned python3 None None 2
           (point_by_reference (Text "p"))
           [(Text "p", obj [("x", PInt 0)])] true
           (point_by_reference_after (Text "p"))).
  reflexivity.
Defined.

Lemma unchanged_iff_no_object_witness :
  three_properties = three_properties
  <-> quiet python3 None None three_properties
        [(Text "n", null_node); (Text "s", string_node);
         (Text "i", integer_node)].
Proof.
  apply (unchanged_iff_no_object python3 None None 1 three_properties
           [(Text "n", null_node); (Text "s", string_node);
            (Text "i", integer_node)]
           [(Text "n", PNone); (Text "i", PInt 0)] true three_properties);
    reflexivity.
Defined.

Lemma document_keys_in_schema_order_witness :
  subseq [Text "n"; Text "i"] [Text "n"; Text "s"; Text "i"].
Proof.
  apply (document_keys_in_schema_order python3 None None 1 three_properties
           [(Text "n", null_node); (Text "s", string_node);
            (Text "i", integer_node)]
           [(Text "n", PNone); (Text "i", PInt 0)] true three_properties);
    reflexivity.
Defined.

Lemma local_pointer_resolves_witness :
  at_path python3 [Text "definitions"; Text "Point"]
    (point_by_reference (Text "p")) = Some point
  /\ resolve python3 None None (point_by_reference (Text "p"))
       (obj [("$ref", str "#/definitions/Point")]) = Ok point.
Proof.
  split; [reflexivity|].
  apply (local_pointer_resolves python3 None None
           (point_by_reference (Text "p"))
           [(Text "$ref", str "#/definitions/Point")]
           "#/definitions/Point" point); reflexivity.
Defined.

Lemma leading_segment_is_dropped_witness :
  (forall p rest,
      "anything/definitions/Point" = p ++ String "/" rest ->
      no_slash p = true ->
      resolve python3 None None (point_by_reference (Text "p"))
        (obj [("$ref", str "anything/definitions/Point")])
      = reduce_get python3 (map Text (split "/" rest))
          (point_by_reference (Text "p")))
  /\ (no_slash "anything/definitions/Point" = true ->
      resolve python3 None None (point_by_reference (Text "p"))
        (obj [("$ref", str "anything/definitions/Point")])
      = Ok (point_by_reference (Text "p"))).
Proof.
  apply (leading_segment_is_dropped python3 None None
           (point_by_reference (Text "p"))
           [(Text "$ref", str "anything/definitions/Point")]
           "anything/definitions/Point"); reflexivity.
Defined.

Lemma listing_without_references_witness :
  ref_free python3 three_properties = true
  /\ (has_key python3 (Text "i") [(Text "n", PNone); (Text "i", PInt 0)] = true
      <-> exists i j,
            In (i, j) [(Text "n", null_node); (Text "s", string_node);
                       (Text "i", integer_node)] /\
            str_eqb python3 i (Text "i") = true /\ contributes python3 j).
Proof.
  split; [reflexivity|].
  apply (listing_without_references python3 None None 1 three_properties
           [(Text "n", null_node); (Text "s", string_node);
            (Text "i", integer_node)]
           [(Text "n", PNone); (Text "i", PInt 0)] true three_properties
           (Text "i")); reflexivity.
Defined.

Lemma pointers_outside_properties_are_stable_witness :
  reduce_get python3 [Text "definitions"; Text "Point"]
    (point_by_reference_after (Text "p"))
  = reduce_get python3 [Text "definitions"; Text "Point"]
      (point_by_reference (Text "p")).
Proof.
  apply (pointers_outside_properties_are_stable python3 None None 2
           (point_by_reference (Text "p"))
           [(Text "p", obj [("x", PInt 0)])] true
           (point_by_reference_after (Text "p"))
           (Text "definitions") [Text "Point"]); reflexivity.
Defined.
